(** * Cherry OpenFlow controller: handshake state machine and ProxyARP

    A shallow embedding of

      - [cherryd/internal/session/of13_controller.go]  (module [Session])
      - [cherryd/northbound/app/proxyarp/arp.go]       (module [ProxyARP])

    Go methods that return [error] become computations in a state and
    error monad over an explicit world.  The collaborators that the two
    files only consume through interfaces (message factory, connection
    writer, host directory, wire encoders, next pipeline stage) are
    section variables: every theorem holds for all of their behaviours. *)

From Stdlib Require Import ZArith String Ascii List Bool Lia.
From Stdlib Require Import Strings.Byte.
From stdpp Require Import base gmap list strings.
Import ListNotations.

Local Open Scope Z_scope.

(** ** Go errors and the state/error monad *)

(** A Go [error] is observed here only through [%v], that is through its
    [Error()] text. *)
Definition error := string.

Inductive result (A : Type) : Type :=
| Ok (a : A)
| Err (e : error).
Arguments Ok {A} a.
Arguments Err {A} e.

(** [M S A]: a computation over the world [S] that yields an [A] or
    returns early with an error; the world it leaves behind is kept in
    both cases (a failed Go call does not undo earlier effects). *)
Definition M (S A : Type) : Type := S -> result A * S.

Definition ret {S A} (a : A) : M S A := fun s => (Ok a, s).

Definition bind {S A B} (m : M S A) (k : A -> M S B) : M S B :=
  fun s =>
    match m s with
    | (Ok a, s') => k a s'
    | (Err e, s') => (Err e, s')
    end.

Definition raise {S A} (e : error) : M S A := fun s => (Err e, s).

Definition gets {S A} (f : S -> A) : M S A := fun s => (Ok (f s), s).

Definition modify {S} (f : S -> S) : M S unit := fun s => (Ok tt, f s).

Declare Scope go_scope.
Delimit Scope go_scope with go.
Notation "'do' x <- m ;; k" := (bind m (fun x => k))
  (at level 10, x name, m at level 99, k at level 200) : go_scope.
Notation "'run' m ;; k" := (bind m (fun _ => k))
  (at level 10, m at level 99, k at level 200) : go_scope.

(** [if err := m; err != nil { return fmt.Errorf(ctx + "%v", err) }] *)
Definition orWrap {S A} (ctx : string) (m : M S A) : M S A :=
  fun s =>
    match m s with
    | (Ok a, s') => (Ok a, s')
    | (Err e, s') => (Err (ctx ++ e)%string, s')
    end.

(** [if err := m; err != nil { log(...) }]: the error is consumed. *)
Definition attempt {S} (m : M S unit) : M S (option error) :=
  fun s =>
    match m s with
    | (Ok _, s') => (Ok None, s')
    | (Err e, s') => (Ok (Some e), s')
    end.

(** A collaborator call that reports failure with a Go [error] value. *)
Definition liftErr {S} (r : option error) : M S unit :=
  match r with
  | None => ret tt
  | Some e => raise e
  end.

(** ** Objects of package [openflow] used by both files *)

Module OpenFlow.

(** An output port as built by [NewOutPort] and its setters; a new one
    that is left alone stands for flooding. *)
Inductive OutPort : Type :=
| OutPortUnset                 (* [openflow.NewOutPort()] *)
| OutPortController            (* after [SetController()] *)
| OutPortValue (port : Z).     (* after [SetValue(port)] *)

Definition NewOutPort : OutPort := OutPortUnset.
Definition SetController (p : OutPort) : OutPort := OutPortController.
Definition SetValue (port : Z) (p : OutPort) : OutPort := OutPortValue port.

Inductive InPort : Type :=
| InPortUnset                  (* [openflow.NewInPort()] *)
| InPortController             (* after [SetController()] *)
| InPortValue (port : Z).

Definition NewInPort : InPort := InPortUnset.
(** [SetController()] of an in-port. *)
Definition SetInPortController (p : InPort) : InPort := InPortController.

Record Action : Type := { act_outPort : option OutPort }.

Definition newAction : Action := {| act_outPort := None |}.
Definition SetOutPort (p : OutPort) (a : Action) : Action :=
  {| act_outPort := Some p |}.

(** A match is the list of fields it constrains; the match that the
    factory hands out constrains none (the source: [// Wildcard]). *)
Record Match : Type := { match_fields : list (string * Z) }.
Definition wildcard : Match := {| match_fields := [] |}.

End OpenFlow.

(** ** The handshake state machine ([of13_controller.go]) *)

Module Session.

Import OpenFlow.

(** The helpers of the session package that [OnHello] calls; each builds
    one protocol message with the factory and writes it. *)
Inductive SendCall : Type :=
| sendHello
| sendSetConfig
| sendFeaturesRequest
| sendBarrierRequest
| sendRemovingAllFlows
| sendDescriptionRequest
| sendPortDescriptionRequest.

Section Handshake.

(** The connection as the helpers see it: [conn] is the state of the
    factory and the writer, [send k c] is what helper [k] does on it
    (the state it leaves and the error it returns, if any). *)
Variable conn : Type.
Variable send : SendCall -> conn -> option error * conn.

(** One helper call as a mock transport records it. *)
Record SendEvent : Type := {
  ev_call : SendCall;
  ev_pre : conn;
  ev_post : conn;
  ev_err : option error
}.

Record HelloWorld : Type := {
  hw_conn : conn;
  hw_calls : list SendEvent
}.

Definition callHelper (k : SendCall) : M HelloWorld unit :=
  fun w =>
    let '(r, c') := send k (hw_conn w) in
    liftErr r {| hw_conn := c';
                 hw_calls := hw_calls w ++
                   [{| ev_call := k; ev_pre := hw_conn w;
                       ev_post := c'; ev_err := r |}] |}.

Definition OnHello : M HelloWorld unit :=
  (run orWrap "failed to send HELLO: " (callHelper sendHello) ;;
   run orWrap "failed to send SET_CONFIG: " (callHelper sendSetConfig) ;;
   run orWrap "failed to send FEATURE_REQUEST: "
         (callHelper sendFeaturesRequest) ;;
   run orWrap "failed to send BARRIER_REQUEST: "
         (callHelper sendBarrierRequest) ;;
   run orWrap "failed to send FLOW_MOD to remove all flows: "
         (callHelper sendRemovingAllFlows) ;;
   run orWrap "failed to send BARRIER_REQUEST: "
         (callHelper sendBarrierRequest) ;;
   run orWrap "failed to send DESCRIPTION_REQUEST: "
         (callHelper sendDescriptionRequest) ;;
   run orWrap "failed to send BARRIER_REQUEST: "
         (callHelper sendBarrierRequest) ;;
   run orWrap "failed to send DESCRIPTION_REQUEST: "
         (callHelper sendPortDescriptionRequest) ;;
   ret tt)%go.

(** The nine steps of the handshake, in the order of the spec. *)
Definition handshake_steps : list SendCall :=
  [sendHello; sendSetConfig; sendFeaturesRequest; sendBarrierRequest;
   sendRemovingAllFlows; sendBarrierRequest; sendDescriptionRequest;
   sendBarrierRequest; sendPortDescriptionRequest].

(** [sequential c tr]: the calls of [tr] were made one after the other
    starting from connection state [c]: each call starts in the state
    the previous one left, and a call is followed by another one only
    if it returned without error. *)
Fixpoint sequential (c : conn) (tr : list SendEvent) : Prop :=
  match tr with
  | [] => True
  | ev :: rest =>
      ev_pre ev = c /\
      send (ev_call ev) c = (ev_err ev, ev_post ev) /\
      (rest <> [] -> ev_err ev = None) /\
      sequential (ev_post ev) rest
  end.

Definition final_conn (c : conn) (tr : list SendEvent) : conn :=
  List.last (map ev_post tr) c.

Definition succeeded (ev : SendEvent) : Prop := ev_err ev = None.

(** The text under which [OnHello] reports the failure of each step. *)
Definition step_contexts : list string :=
  ["failed to send HELLO: ";
   "failed to send SET_CONFIG: ";
   "failed to send FEATURE_REQUEST: ";
   "failed to send BARRIER_REQUEST: ";
   "failed to send FLOW_MOD to remove all flows: ";
   "failed to send BARRIER_REQUEST: ";
   "failed to send DESCRIPTION_REQUEST: ";
   "failed to send BARRIER_REQUEST: ";
   "failed to send DESCRIPTION_REQUEST: "]%string.

End Handshake.

Arguments ev_call {conn} _.
Arguments ev_pre {conn} _.
Arguments ev_post {conn} _.
Arguments ev_err {conn} _.
Arguments hw_conn {conn} _.
Arguments hw_calls {conn} _.
Arguments succeeded {conn} _.

(** *** Hardware identity *)

(** [strings.HasPrefix(s, prefix)] *)
Definition HasPrefix (s pre : string) : bool := String.prefix pre s.

(** [strings.Contains(s, substr)]: [substr] occurs at some offset of [s]. *)
Fixpoint Contains (s substr : string) : bool :=
  HasPrefix s substr ||
  match s with
  | EmptyString => false
  | String _ s' => Contains s' substr
  end.

(** What "has the prefix" and "contains" mean, independently of the
    two string functions above. *)
Definition startsWith (s pre : string) : Prop :=
  exists rest, s = (pre ++ rest)%string.

Definition occursIn (sub s : string) : Prop :=
  exists before after, s = (before ++ sub ++ after)%string.

(** The fields of [openflow.DescReply] that the accessors return. *)
Record DescReply : Type := {
  Manufacturer : string;
  Hardware : string;
  Software : string;
  Serial : string;
  Description : string
}.

Definition isHP2920_24G (msg : DescReply) : bool :=
  HasPrefix (Manufacturer msg) "HP" && HasPrefix (Hardware msg) "2920-24G".

Definition isAS460054_T (msg : DescReply) : bool :=
  Contains (Hardware msg) "AS4600-54T".

(** The arm of the [switch] in [OnDescReply] that a reply takes. *)
Inductive Profile : Type :=
| ProfileHP2920    (* Profile A: [setHP2920TableMiss] *)
| ProfileAS4600    (* Profile B: [setAS4600TableMiss] *)
| ProfileDefault.  (* [setDefaultTableMiss] *)

Definition selectedProfile (v : DescReply) : Profile :=
  if isHP2920_24G v then ProfileHP2920
  else if isAS460054_T v then ProfileAS4600
  else ProfileDefault.

(** *** Protocol objects *)

(** Modelled from the spec: the instruction object of the message
    factory ([openflow.Instruction]; its implementation is not among the
    sources).  The spec has the entry of each table carry the one
    instruction set last on the object ("table 0 unconditionally jumps
    to table 100; table 100 unconditionally jumps to table 200; table
    200's table-miss entry applies the send to controller action"), so
    an instruction object holds one instruction and each setter
    replaces it. *)
Inductive Instruction : Type :=
| InstEmpty
| InstGotoTable (tableID : Z)
| InstApplyAction (a : Action).

(** Instruction objects are shared and mutated: they live in a store
    and are named by their address. *)
Definition InstRef := nat.

Inductive FlowCommand : Type := FlowAdd | FlowModify | FlowDelete.

(** A flow-modification message; [I] is how it names its instruction:
    an [InstRef] while the message is an object of the program, the
    [Instruction] itself once the message is written out. *)
Record FlowMod (I : Type) : Type := {
  fm_command : FlowCommand;
  fm_cookie : Z;
  fm_tableID : Z;
  fm_idleTimeout : Z;
  fm_hardTimeout : Z;
  fm_priority : Z;
  fm_match : option Match;
  fm_instruction : option I
}.
Arguments fm_command {I} _.
Arguments fm_cookie {I} _.
Arguments fm_tableID {I} _.
Arguments fm_idleTimeout {I} _.
Arguments fm_hardTimeout {I} _.
Arguments fm_priority {I} _.
Arguments fm_match {I} _.
Arguments fm_instruction {I} _.

Definition newFlowMod (cmd : FlowCommand) : FlowMod InstRef :=
  {| fm_command := cmd; fm_cookie := 0; fm_tableID := 0;
     fm_idleTimeout := 0; fm_hardTimeout := 0; fm_priority := 0;
     fm_match := None; fm_instruction := None |}.

Definition SetCookie {I} (c : Z) (m : FlowMod I) : FlowMod I :=
  {| fm_command := fm_command m; fm_cookie := c mod 2 ^ 64;
     fm_tableID := fm_tableID m; fm_idleTimeout := fm_idleTimeout m;
     fm_hardTimeout := fm_hardTimeout m; fm_priority := fm_priority m;
     fm_match := fm_match m; fm_instruction := fm_instruction m |}.

Definition SetTableID {I} (t : Z) (m : FlowMod I) : FlowMod I :=
  {| fm_command := fm_command m; fm_cookie := fm_cookie m;
     fm_tableID := t mod 2 ^ 8; fm_idleTimeout := fm_idleTimeout m;
     fm_hardTimeout := fm_hardTimeout m; fm_priority := fm_priority m;
     fm_match := fm_match m; fm_instruction := fm_instruction m |}.

Definition SetIdleTimeout {I} (t : Z) (m : FlowMod I) : FlowMod I :=
  {| fm_command := fm_command m; fm_cookie := fm_cookie m;
     fm_tableID := fm_tableID m; fm_idleTimeout := t mod 2 ^ 16;
     fm_hardTimeout := fm_hardTimeout m; fm_priority := fm_priority m;
     fm_match := fm_match m; fm_instruction := fm_instruction m |}.

Definition SetHardTimeout {I} (t : Z) (m : FlowMod I) : FlowMod I :=
  {| fm_command := fm_command m; fm_cookie := fm_cookie m;
     fm_tableID := fm_tableID m; fm_idleTimeout := fm_idleTimeout m;
     fm_hardTimeout := t mod 2 ^ 16; fm_priority := fm_priority m;
     fm_match := fm_match m; fm_instruction := fm_instruction m |}.

Definition SetPriority {I} (p : Z) (m : FlowMod I) : FlowMod I :=
  {| fm_command := fm_command m; fm_cookie := fm_cookie m;
     fm_tableID := fm_tableID m; fm_idleTimeout := fm_idleTimeout m;
     fm_hardTimeout := fm_hardTimeout m; fm_priority := p mod 2 ^ 16;
     fm_match := fm_match m; fm_instruction := fm_instruction m |}.

Definition SetFlowMatch {I} (x : Match) (m : FlowMod I) : FlowMod I :=
  {| fm_command := fm_command m; fm_cookie := fm_cookie m;
     fm_tableID := fm_tableID m; fm_idleTimeout := fm_idleTimeout m;
     fm_hardTimeout := fm_hardTimeout m; fm_priority := fm_priority m;
     fm_match := Some x; fm_instruction := fm_instruction m |}.

Definition SetFlowInstruction {I} (i : I) (m : FlowMod I) : FlowMod I :=
  {| fm_command := fm_command m; fm_cookie := fm_cookie m;
     fm_tableID := fm_tableID m; fm_idleTimeout := fm_idleTimeout m;
     fm_hardTimeout := fm_hardTimeout m; fm_priority := fm_priority m;
     fm_match := fm_match m; fm_instruction := Some i |}.

(** What goes out when a message is written: the message with the
    instruction object as it is at that moment. *)
Definition serialise (heap : list Instruction) (m : FlowMod InstRef)
  : FlowMod Instruction :=
  {| fm_command := fm_command m; fm_cookie := fm_cookie m;
     fm_tableID := fm_tableID m; fm_idleTimeout := fm_idleTimeout m;
     fm_hardTimeout := fm_hardTimeout m; fm_priority := fm_priority m;
     fm_match := fm_match m;
     fm_instruction :=
       match fm_instruction m with
       | Some r => heap !! r
       | None => None
       end |}.

(** The table-miss entry that [setTableMiss] builds for a table, as it
    goes out: wildcard match, the most significant cookie bit, no
    timeouts, priority zero. *)
Definition tableMissEntry (tableID : Z) (inst : Instruction)
  : FlowMod Instruction :=
  {| fm_command := FlowAdd; fm_cookie := 2 ^ 63; fm_tableID := tableID;
     fm_idleTimeout := 0; fm_hardTimeout := 0; fm_priority := 0;
     fm_match := Some wildcard; fm_instruction := Some inst |}.

(** The action "output to the controller". *)
Definition toController : Action :=
  {| act_outPort := Some OutPortController |}.

(** The contract of a table-miss entry. *)
Definition isTableMiss (m : FlowMod Instruction) : Prop :=
  fm_match m = Some wildcard /\
  Z.testbit (fm_cookie m) 63 = true /\
  0 <= fm_cookie m < 2 ^ 64 /\
  fm_idleTimeout m = 0 /\
  fm_hardTimeout m = 0 /\
  fm_priority m = 0.

(** *** The device *)

Record Port : Type := {
  Number : Z;
  IsPortDown : bool;
  IsLinkDown : bool
}.

Record Device : Type := {
  dev_ID : string;
  dev_flowTableID : Z;
  dev_ports : gmap Z Port
}.

(** Modelled from the spec: [network.Device.SetFlowTableID], not under
    src/ ("the device's default table for future flow installation is
    set to ..."). *)
Definition SetFlowTableID (t : Z) (d : Device) : Device :=
  {| dev_ID := dev_ID d; dev_flowTableID := t mod 2 ^ 8;
     dev_ports := dev_ports d |}.

(** Modelled from the spec: [network.Device.AddPort], not under src/
    ("each reported port becomes a Port" of the device's port set). *)
Definition AddPort (num : Z) (p : Port) (d : Device) : Device :=
  {| dev_ID := dev_ID d; dev_flowTableID := dev_flowTableID d;
     dev_ports := <[num := p]> (dev_ports d) |}.

(** Modelled from the spec: [network.Device.UpdatePort], not under src/
    ("update the corresponding Port's flags in place"). *)
Definition UpdatePort (num : Z) (p : Port) (d : Device) : Device :=
  {| dev_ID := dev_ID d; dev_flowTableID := dev_flowTableID d;
     dev_ports := <[num := p]> (dev_ports d) |}.

Inductive LogEntry : Type :=
| LogErrLLDP (err : error)                          (* "failed to send LLDP: %v" *)
| LogDebugPort (num : Z) (adminUp linkUp : bool).   (* "Port: num=%v, ..." *)

Record PortDescReply : Type := { Ports : list Port }.
Record PortStatus : Type := { StatusPort : Port }.

(** *** The controller's handlers *)

Inductive FactoryCall : Type :=
| KMatch
| KFlowMod (cmd : FlowCommand)
| KInstruction
| KAction.

Section Controller.

(** The collaborators: [conn] is the state behind the factory [f] and
    the writer [w] of one connection; each call may fail, and which ones
    do is up to the collaborator. *)
Variable conn : Type.
Variable factory : FactoryCall -> conn -> option error * conn.
Variable write : FlowMod Instruction -> conn -> option error * conn.
Variable sendLLDP : string -> Port -> conn -> option error * conn.

(** [of13.OFPP_MAX], the protocol's maximum valid port value (the
    constant is declared outside the two files). *)
Variable OFPP_MAX : Z.

Record World : Type := {
  w_conn : conn;
  w_heap : list Instruction;               (* the instruction objects *)
  w_written : list (FlowMod Instruction);  (* arguments of [w.Write], in order *)
  w_lldp : list Port;                      (* ports of the [sendLLDP] calls *)
  w_device : Device;                       (* [r.device] *)
  w_log : list LogEntry                    (* [r.log] *)
}.

Definition set_conn (c : conn) (w : World) : World :=
  {| w_conn := c; w_heap := w_heap w; w_written := w_written w;
     w_lldp := w_lldp w; w_device := w_device w; w_log := w_log w |}.

Definition set_heap (h : list Instruction) (w : World) : World :=
  {| w_conn := w_conn w; w_heap := h; w_written := w_written w;
     w_lldp := w_lldp w; w_device := w_device w; w_log := w_log w |}.

Definition add_written (m : FlowMod Instruction) (w : World) : World :=
  {| w_conn := w_conn w; w_heap := w_heap w;
     w_written := w_written w ++ [m];
     w_lldp := w_lldp w; w_device := w_device w; w_log := w_log w |}.

Definition add_lldp (p : Port) (w : World) : World :=
  {| w_conn := w_conn w; w_heap := w_heap w; w_written := w_written w;
     w_lldp := w_lldp w ++ [p]; w_device := w_device w; w_log := w_log w |}.

Definition on_device (f : Device -> Device) (w : World) : World :=
  {| w_conn := w_conn w; w_heap := w_heap w; w_written := w_written w;
     w_lldp := w_lldp w; w_device := f (w_device w); w_log := w_log w |}.

Definition add_log (e : LogEntry) (w : World) : World :=
  {| w_conn := w_conn w; w_heap := w_heap w; w_written := w_written w;
     w_lldp := w_lldp w; w_device := w_device w; w_log := w_log w ++ [e] |}.

Definition callFactory (k : FactoryCall) : M World unit :=
  fun w => let '(r, c') := factory k (w_conn w) in liftErr r (set_conn c' w).

Definition NewMatch : M World Match :=
  (run callFactory KMatch ;; ret wildcard)%go.

Definition NewFlowMod (cmd : FlowCommand) : M World (FlowMod InstRef) :=
  (run callFactory (KFlowMod cmd) ;; ret (newFlowMod cmd))%go.

Definition NewAction : M World Action :=
  (run callFactory KAction ;; ret newAction)%go.

(** A new instruction object: a fresh cell of the store. *)
Definition NewInstruction : M World InstRef :=
  (run callFactory KInstruction ;;
   do h <- gets w_heap ;;
   run modify (set_heap (h ++ [InstEmpty])) ;;
   ret (length h))%go.

Definition GotoTable (inst : InstRef) (tableID : Z) : M World unit :=
  modify (fun w => set_heap (<[inst := InstGotoTable (tableID mod 2 ^ 8)]> (w_heap w)) w).

Definition ApplyAction (inst : InstRef) (act : Action) : M World unit :=
  modify (fun w => set_heap (<[inst := InstApplyAction act]> (w_heap w)) w).

(** [w.Write(msg)]: the writer transmits the message before it returns
    (sends are synchronous), so the message goes out with the
    instruction object as it is at the call; what is done to the object
    afterwards does not reach it. *)
Definition Write (msg : FlowMod InstRef) : M World unit :=
  fun w =>
    let out := serialise (w_heap w) msg in
    let '(r, c') := write out (w_conn w) in
    liftErr r (add_written out (set_conn c' w)).

Definition setTableMiss (tableID : Z) (inst : InstRef) : M World unit :=
  (do match_ <- NewMatch ;;
   do msg <- NewFlowMod FlowAdd ;;
   let msg := SetCookie (Z.shiftl 1 63) msg in
   let msg := SetTableID tableID msg in
   let msg := SetIdleTimeout 0 msg in
   let msg := SetHardTimeout 0 msg in
   let msg := SetPriority 0 msg in
   let msg := SetFlowMatch match_ msg in
   let msg := SetFlowInstruction inst msg in
   Write msg)%go.

Definition setHP2920TableMiss : M World unit :=
  (do inst <- NewInstruction ;;
   run GotoTable inst 100 ;;
   run orWrap "failed to set table_miss flow entry: " (setTableMiss 0 inst) ;;
   run GotoTable inst 200 ;;
   run orWrap "failed to set table_miss flow entry: " (setTableMiss 100 inst) ;;
   let outPort := NewOutPort in
   let outPort := SetController outPort in
   do action <- NewAction ;;
   let action := SetOutPort outPort action in
   run ApplyAction inst action ;;
   run orWrap "failed to set table_miss flow entry: " (setTableMiss 200 inst) ;;
   run modify (on_device (SetFlowTableID 200)) ;;
   ret tt)%go.

Definition setAS4600TableMiss : M World unit := ret tt.

Definition setDefaultTableMiss : M World unit :=
  (do inst <- NewInstruction ;;
   let outPort := NewOutPort in
   let outPort := SetController outPort in
   do action <- NewAction ;;
   let action := SetOutPort outPort action in
   run ApplyAction inst action ;;
   run orWrap "failed to set table_miss flow entry: " (setTableMiss 0 inst) ;;
   run modify (on_device (SetFlowTableID 0)) ;;
   ret tt)%go.

Definition OnDescReply (v : DescReply) : M World unit :=
  if isHP2920_24G v then setHP2920TableMiss
  else if isAS460054_T v then setAS4600TableMiss
  else setDefaultTableMiss.

(** [for _, p := range l { body(p) }] *)
Fixpoint forEach {A} (l : list A) (body : A -> M World unit) : M World unit :=
  match l with
  | [] => ret tt
  | x :: rest => (run body x ;; forEach rest body)%go
  end.

Definition callLLDP (p : Port) : M World unit :=
  fun w =>
    let '(r, c') := sendLLDP (dev_ID (w_device w)) p (w_conn w) in
    liftErr r (add_lldp p (set_conn c' w)).

(** The body of the loop of [OnPortDescReply]. *)
Definition portDescBody (p : Port) : M World unit :=
  if Number p >? OFPP_MAX then ret tt   (* continue *)
  else
    (run modify (on_device (AddPort (Number p) p)) ;;
     run (if negb (IsPortDown p) && negb (IsLinkDown p) then
            (do r <- attempt (callLLDP p) ;;
             match r with
             | Some err => modify (add_log (LogErrLLDP err))
             | None => ret tt
             end)
          else ret tt) ;;
     modify (add_log (LogDebugPort (Number p)
                        (negb (IsPortDown p)) (negb (IsLinkDown p)))))%go.

Definition OnPortDescReply (v : PortDescReply) : M World unit :=
  (run forEach (Ports v) portDescBody ;; ret tt)%go.

Definition OnPortStatus (v : PortStatus) : M World unit :=
  let p := StatusPort v in
  if Number p >? OFPP_MAX then ret tt
  else (run modify (on_device (UpdatePort (Number p) p)) ;; ret tt)%go.

End Controller.

Arguments w_conn {conn} _.
Arguments w_heap {conn} _.
Arguments w_written {conn} _.
Arguments w_lldp {conn} _.
Arguments w_device {conn} _.
Arguments w_log {conn} _.

End Session.

(** ** The address-resolution proxy ([proxyarp/arp.go]) *)

Module ProxyARP.

Import OpenFlow.

(** [[]byte], [net.IP] and [net.HardwareAddr]. *)
Definition bytes := list byte.

(** [bytes.Equal] *)
Fixpoint bytesEqual (a b : bytes) : bool :=
  match a, b with
  | [], [] => true
  | x :: a', y :: b' => Byte.eqb x y && bytesEqual a' b'
  | _, _ => false
  end.

(** [bytes.Compare]: lexicographic, -1, 0 or +1. *)
Fixpoint Compare (a b : bytes) : Z :=
  match a, b with
  | [], [] => 0
  | [], _ :: _ => -1
  | _ :: _, [] => 1
  | x :: a', y :: b' =>
      if (Byte.to_N x <? Byte.to_N y)%N then -1
      else if (Byte.to_N y <? Byte.to_N x)%N then 1
      else Compare a' b'
  end.

Definition IPv4len : nat := 4.
Definition IPv6len : nat := 16.

Definition v4InV6Prefix : bytes :=
  [x00; x00; x00; x00; x00; x00; x00; x00; x00; x00; xff; xff].

(** [net.IP.Equal]: an IPv4 address and its IPv4-in-IPv6 form are equal. *)
Definition IPEqual (ip x : bytes) : bool :=
  if (length ip =? length x)%nat then bytesEqual ip x
  else if (length ip =? IPv4len)%nat && (length x =? IPv6len)%nat then
    bytesEqual (take 12 x) v4InV6Prefix && bytesEqual ip (drop 12 x)
  else if (length ip =? IPv6len)%nat && (length x =? IPv4len)%nat then
    bytesEqual (take 12 ip) v4InV6Prefix && bytesEqual (drop 12 ip) x
  else false.

(** [protocol.ARP] *)
Record ARP : Type := {
  HWType : Z;
  ProtoType : Z;
  HWLength : Z;
  ProtoLength : Z;
  Operation : Z;
  SHA : bytes;   (* sender hardware address *)
  SPA : bytes;   (* sender protocol address *)
  THA : bytes;   (* target hardware address *)
  TPA : bytes    (* target protocol address *)
}.

(** Modelled from the spec: [protocol.NewARPReply(sha, tha, spa, tpa)],
    not under src/: "an ARP reply carrying the directory's MAC as
    sender, addressed back to the original requester's MAC/address
    pair"; operation code 2 is a reply, hardware type 1 is Ethernet and
    protocol type 0x0800 is IPv4. *)
Definition NewARPReply (sha tha spa tpa : bytes) : ARP :=
  {| HWType := 1; ProtoType := 0x0800; HWLength := 6; ProtoLength := 4;
     Operation := 2; SHA := sha; SPA := spa; THA := tha; TPA := tpa |}.

(** [protocol.Ethernet] *)
Record Ethernet : Type := {
  SrcMAC : bytes;
  DstMAC : bytes;
  EthType : Z;
  Payload : bytes
}.

(** The ingress [*network.Port]: what [ID()] and [Number()] return. *)
Record IngressPort : Type := {
  port_ID : string;
  port_Number : Z
}.

Record PacketOut : Type := {
  po_inPort : option InPort;
  po_action : option Action;
  po_data : option bytes
}.

Definition newPacketOut : PacketOut :=
  {| po_inPort := None; po_action := None; po_data := None |}.
Definition SetInPort (p : InPort) (m : PacketOut) : PacketOut :=
  {| po_inPort := Some p; po_action := po_action m; po_data := po_data m |}.
Definition SetAction (a : Action) (m : PacketOut) : PacketOut :=
  {| po_inPort := po_inPort m; po_action := Some a; po_data := po_data m |}.
Definition SetData (d : bytes) (m : PacketOut) : PacketOut :=
  {| po_inPort := po_inPort m; po_action := po_action m; po_data := Some d |}.

Inductive FactoryCall : Type := KAction | KPacketOut.

(** The packet-out that carries an ARP reply: in-port "controller", one
    output action to the given port, the frame as data. *)
Definition arpReplyOut (port : Z) (data : bytes) : PacketOut :=
  {| po_inPort := Some InPortController;
     po_action := Some {| act_outPort := Some (OutPortValue port) |};
     po_data := Some data |}.

Definition zeroMAC : bytes := [x00; x00; x00; x00; x00; x00].

Inductive LogEntry : Type :=
| DebugReceived (ingress : string)
| DebugNotRequest (ingress : string) (operation : Z)
| DebugAnnouncement (ingress : string)
| InfoSuspicious (src dst : bytes)
| DebugPassValid
| DebugUnknownHost (tpa : bytes)
| DebugRequestFor (tpa mac : bytes)
| DebugSendingReply (ingress : string).

Definition isARPAnnouncement (request : ARP) : bool :=
  let sameAddr := IPEqual (SPA request) (TPA request) in
  let zeroTarget :=
    (Compare (THA request) [x00; x00; x00; x00; x00; x00] =? 0)%Z in
  if negb sameAddr || negb zeroTarget then false else true.

Section Handler.

(** The collaborators of the application.  [env] is the state behind
    the directory, the ingress device (its factory and its send
    operation) and the rest of the pipeline.  [FindMAC] returns the
    triple [(mac, ok, err)] of the [database] interface; the decoders
    and encoders of package [protocol] are functions of their input;
    [next] is [BaseProcessor.OnPacketIn], which hands the event to the
    next application of the pipeline. *)
Variable env : Type.
Variable Finder : Type.
Variable FindMAC : bytes -> env -> (bytes * bool * option error) * env.
Variable UnmarshalARP : bytes -> result ARP.
Variable MarshalARP : ARP -> result bytes.
Variable MarshalEthernet : Ethernet -> result bytes.
Variable factory : FactoryCall -> env -> option error * env.
Variable SendMessage : PacketOut -> env -> option error * env.
Variable next : Finder -> IngressPort -> Ethernet -> env -> option error * env.

Record World : Type := {
  w_env : env;
  w_lookups : list bytes;                      (* arguments of [db.FindMAC] *)
  w_forwarded : list (IngressPort * Ethernet); (* events handed to [next] *)
  w_sent : list PacketOut;                     (* arguments of [SendMessage] *)
  w_log : list LogEntry
}.

Definition set_env (e : env) (w : World) : World :=
  {| w_env := e; w_lookups := w_lookups w; w_forwarded := w_forwarded w;
     w_sent := w_sent w; w_log := w_log w |}.

Definition add_lookup (ip : bytes) (w : World) : World :=
  {| w_env := w_env w; w_lookups := w_lookups w ++ [ip];
     w_forwarded := w_forwarded w; w_sent := w_sent w; w_log := w_log w |}.

Definition add_forwarded (ev : IngressPort * Ethernet) (w : World) : World :=
  {| w_env := w_env w; w_lookups := w_lookups w;
     w_forwarded := w_forwarded w ++ [ev]; w_sent := w_sent w;
     w_log := w_log w |}.

Definition add_sent (m : PacketOut) (w : World) : World :=
  {| w_env := w_env w; w_lookups := w_lookups w;
     w_forwarded := w_forwarded w; w_sent := w_sent w ++ [m];
     w_log := w_log w |}.

Definition log (e : LogEntry) : M World unit :=
  modify (fun w =>
    {| w_env := w_env w; w_lookups := w_lookups w;
       w_forwarded := w_forwarded w; w_sent := w_sent w;
       w_log := w_log w ++ [e] |}).

Definition liftResult {A} (r : result A) : M World A := fun w => (r, w).

(** [r.db.FindMAC(ip)] *)
Definition callFindMAC (ip : bytes) : M World (bytes * bool * option error) :=
  fun w =>
    let '(r, e') := FindMAC ip (w_env w) in
    (Ok r, add_lookup ip (set_env e' w)).

(** [r.BaseProcessor.OnPacketIn(finder, ingress, eth)] *)
Definition forward (finder : Finder) (ingress : IngressPort) (eth : Ethernet)
  : M World unit :=
  fun w =>
    let '(r, e') := next finder ingress eth (w_env w) in
    liftErr r (add_forwarded (ingress, eth) (set_env e' w)).

Definition callFactory (k : FactoryCall) : M World unit :=
  fun w => let '(r, e') := factory k (w_env w) in liftErr r (set_env e' w).

Definition NewAction : M World Action :=
  (run callFactory KAction ;; ret newAction)%go.

Definition NewPacketOut : M World PacketOut :=
  (run callFactory KPacketOut ;; ret newPacketOut)%go.

(** [ingress.Device().SendMessage(out)] *)
Definition callSendMessage (out : PacketOut) : M World unit :=
  fun w =>
    let '(r, e') := SendMessage out (w_env w) in
    liftErr r (add_sent out (set_env e' w)).

Definition sendARPReply (ingress : IngressPort) (packet : bytes) : M World unit :=
  (let inPort := NewInPort in
   let inPort := SetInPortController inPort in
   let outPort := NewOutPort in
   let outPort := SetValue (port_Number ingress) outPort in
   do action <- NewAction ;;
   let action := SetOutPort outPort action in
   do out <- NewPacketOut ;;
   let out := SetInPort inPort out in
   let out := SetAction action out in
   let out := SetData packet out in
   callSendMessage out)%go.

Definition isValidARPAnnouncement (request : ARP) : M World bool :=
  (do r <- callFindMAC (SPA request) ;;
   let '(mac, ok, err) := r in
   match err with
   | Some e => raise e
   | None =>
       if negb ok || negb (Compare mac (SHA request) =? 0)%Z then ret false
       else ret true
   end)%go.

Definition makeARPReply (request : ARP) (mac : bytes) : M World bytes :=
  (let v := NewARPReply mac (SHA request) (TPA request) (SPA request) in
   do reply <- liftResult (MarshalARP v) ;;
   let eth := {| SrcMAC := mac; DstMAC := SHA request;
                 EthType := 0x0806; Payload := reply |} in
   liftResult (MarshalEthernet eth))%go.

Definition OnPacketIn (finder : Finder) (ingress : IngressPort) (eth : Ethernet)
  : M World unit :=
  (if negb (EthType eth =? 0x0806)%Z then forward finder ingress eth
   else
     run log (DebugReceived (port_ID ingress)) ;;
     do arp <- liftResult (UnmarshalARP (Payload eth)) ;;
     if negb (Operation arp =? 1)%Z then
       run log (DebugNotRequest (port_ID ingress) (Operation arp)) ;;
       ret tt
     else if isARPAnnouncement arp then
       run log (DebugAnnouncement (port_ID ingress)) ;;
       do valid <- isValidARPAnnouncement arp ;;
       if negb valid then
         run log (InfoSuspicious (SrcMAC eth) (DstMAC eth)) ;;
         ret tt
       else
         run log DebugPassValid ;;
         forward finder ingress eth
     else
       do r <- callFindMAC (TPA arp) ;;
       let '(mac, ok, err) := r in
       match err with
       | Some e => raise e
       | None =>
           if negb ok then
             run log (DebugUnknownHost (TPA arp)) ;;
             ret tt
           else
             run log (DebugRequestFor (TPA arp) mac) ;;
             do reply <- makeARPReply arp mac ;;
             run log (DebugSendingReply (port_ID ingress)) ;;
             sendARPReply ingress reply
       end)%go.

End Handler.

Arguments w_env {env} _.
Arguments w_lookups {env} _.
Arguments w_forwarded {env} _.
Arguments w_sent {env} _.
Arguments w_log {env} _.

End ProxyARP.

(** ** Concrete inputs and collaborators *)

Module Samples.

Import OpenFlow.

(** A description reply that meets the conditions of both hardware
    profiles: an HP 2920-24G whose hardware string goes on to mention
    AS4600-54T. *)
Definition overlapping_reply : Session.DescReply :=
  {| Session.Manufacturer := "HP";
     Session.Hardware := "2920-24G AS4600-54T";
     Session.Software := ""; Session.Serial := "";
     Session.Description := "" |}.

(** A connection that counts the calls made on it and never fails. *)
Definition okFactory (k : Session.FactoryCall) (n : nat) : option error * nat :=
  (None, S n).
Definition okWrite (m : Session.FlowMod Session.Instruction) (n : nat)
  : option error * nat := (None, S n).
Definition okLLDP (id : string) (p : Session.Port) (n : nat)
  : option error * nat := (None, S n).

Definition hp_reply : Session.DescReply :=
  {| Session.Manufacturer := "HP";
     Session.Hardware := "2920-24G-PoE+ Switch";
     Session.Software := "WB.15.15"; Session.Serial := "SG00";
     Session.Description := "" |}.

Definition as4600_reply : Session.DescReply :=
  {| Session.Manufacturer := "Accton";
     Session.Hardware := "Edge-Core AS4600-54T";
     Session.Software := ""; Session.Serial := "";
     Session.Description := "" |}.

Definition other_reply : Session.DescReply :=
  {| Session.Manufacturer := "Nicira, Inc.";
     Session.Hardware := "Open vSwitch";
     Session.Software := "2.3.1"; Session.Serial := "None";
     Session.Description := "" |}.

Definition device0 : Session.Device :=
  {| Session.dev_ID := "00:00:00:00:00:01";
     Session.dev_flowTableID := 7;
     Session.dev_ports := ∅ |}.

Definition world0 : Session.World nat :=
  {| Session.w_conn := 0%nat; Session.w_heap := [];
     Session.w_written := []; Session.w_lldp := [];
     Session.w_device := device0; Session.w_log := [] |}.

(** A mock transport: the connection state counts the sends made so
    far, and the send number [n] (from 0) fails with "EOF". *)
Definition failingAt (n : nat) (k : Session.SendCall) (sent : nat)
  : option error * nat :=
  (if (sent =? n)%nat then Some "EOF"%string else None, S sent).

(** A mock transport on which every send succeeds. *)
Definition neverFailing (k : Session.SendCall) (sent : nat)
  : option error * nat := (None, S sent).

Definition hello0 : Session.HelloWorld nat :=
  {| Session.hw_conn := 0%nat; Session.hw_calls := [] |}.

(** The value of [OFPP_MAX] in OpenFlow 1.3, and the reserved port
    [OFPP_LOCAL] above it. *)
Definition OFPP_MAX : Z := 0xffffff00.

Definition local_port : Session.Port :=
  {| Session.Number := 0xfffffffe;
     Session.IsPortDown := false; Session.IsLinkDown := false |}.

Definition port1 : Session.Port :=
  {| Session.Number := 1;
     Session.IsPortDown := false; Session.IsLinkDown := false |}.

(** *** A small network for the proxy *)

Definition ip_10_0_0_5 : ProxyARP.bytes := [x0a; x00; x00; x05].
Definition ip_10_0_0_7 : ProxyARP.bytes := [x0a; x00; x00; x07].
Definition ip_10_0_0_9 : ProxyARP.bytes := [x0a; x00; x00; x09].
Definition mac_host5 : ProxyARP.bytes := [xaa; xbb; xcc; xdd; xee; xff].
Definition mac_host9 : ProxyARP.bytes := [x02; x00; x00; x00; x00; x09].
Definition mac_rogue : ProxyARP.bytes := [x02; x00; x00; x00; x00; x66].
Definition broadcast : ProxyARP.bytes := [xff; xff; xff; xff; xff; xff].

(** A directory with one entry, 10.0.0.5 -> aa:bb:cc:dd:ee:ff; the
    state counts the calls made to the collaborators. *)
Definition directory (ip : ProxyARP.bytes) (n : nat)
  : (ProxyARP.bytes * bool * option error) * nat :=
  (if ProxyARP.bytesEqual ip ip_10_0_0_5 then (mac_host5, true, None)
   else ([], false, None),
   S n).

Definition byteOf (z : Z) : byte :=
  match Byte.of_N (Z.to_N z) with
  | Some b => b
  | None => x00
  end.

Definition word16 (hi lo : byte) : Z :=
  Z.of_N (Byte.to_N hi) * 256 + Z.of_N (Byte.to_N lo).

(** The ARP packet layout of RFC 826 for Ethernet and IPv4. *)
Definition arpBytes (a : ProxyARP.ARP) : ProxyARP.bytes :=
  [byteOf (ProxyARP.HWType a / 256); byteOf (ProxyARP.HWType a mod 256);
   byteOf (ProxyARP.ProtoType a / 256); byteOf (ProxyARP.ProtoType a mod 256);
   byteOf (ProxyARP.HWLength a); byteOf (ProxyARP.ProtoLength a);
   byteOf (ProxyARP.Operation a / 256); byteOf (ProxyARP.Operation a mod 256)]
  ++ ProxyARP.SHA a ++ ProxyARP.SPA a ++ ProxyARP.THA a ++ ProxyARP.TPA a.

Definition encodeARP (a : ProxyARP.ARP) : result ProxyARP.bytes :=
  Ok (arpBytes a).

Definition decodeARP (b : ProxyARP.bytes) : result ProxyARP.ARP :=
  match b with
  | h1 :: h2 :: p1 :: p2 :: hl :: pl :: o1 :: o2 :: rest =>
      if (length rest =? 20)%nat then
        Ok {| ProxyARP.HWType := word16 h1 h2;
              ProxyARP.ProtoType := word16 p1 p2;
              ProxyARP.HWLength := Z.of_N (Byte.to_N hl);
              ProxyARP.ProtoLength := Z.of_N (Byte.to_N pl);
              ProxyARP.Operation := word16 o1 o2;
              ProxyARP.SHA := take 6 rest;
              ProxyARP.SPA := take 4 (drop 6 rest);
              ProxyARP.THA := take 6 (drop 10 rest);
              ProxyARP.TPA := drop 16 rest |}
      else Err "invalid ARP packet length"
  | _ => Err "invalid ARP packet length"
  end.

Definition encodeEthernet (e : ProxyARP.Ethernet) : result ProxyARP.bytes :=
  Ok (ProxyARP.DstMAC e ++ ProxyARP.SrcMAC e ++
      [byteOf (ProxyARP.EthType e / 256); byteOf (ProxyARP.EthType e mod 256)] ++
      ProxyARP.Payload e).

Definition okARPFactory (k : ProxyARP.FactoryCall) (n : nat)
  : option error * nat := (None, S n).
Definition okSend (m : ProxyARP.PacketOut) (n : nat)
  : option error * nat := (None, S n).
Definition okNext (f : unit) (p : ProxyARP.IngressPort)
  (e : ProxyARP.Ethernet) (n : nat) : option error * nat := (None, S n).

Definition arpRequest (sha spa tpa : ProxyARP.bytes) : ProxyARP.ARP :=
  {| ProxyARP.HWType := 1; ProxyARP.ProtoType := 0x0800;
     ProxyARP.HWLength := 6; ProxyARP.ProtoLength := 4;
     ProxyARP.Operation := 1;
     ProxyARP.SHA := sha; ProxyARP.SPA := spa;
     ProxyARP.THA := ProxyARP.zeroMAC; ProxyARP.TPA := tpa |}.

(** Host 10.0.0.9 asks for 10.0.0.5 (known) and for 10.0.0.7 (unknown). *)
Definition request_for_5 : ProxyARP.ARP :=
  arpRequest mac_host9 ip_10_0_0_9 ip_10_0_0_5.
Definition request_for_7 : ProxyARP.ARP :=
  arpRequest mac_host9 ip_10_0_0_9 ip_10_0_0_7.

(** 10.0.0.5 announced by its owner, and by somebody else. *)
Definition honest_announcement : ProxyARP.ARP :=
  arpRequest mac_host5 ip_10_0_0_5 ip_10_0_0_5.
Definition forged_announcement : ProxyARP.ARP :=
  arpRequest mac_rogue ip_10_0_0_5 ip_10_0_0_5.

(** The broadcast frame that carries an ARP packet of a host. *)
Definition frameOf (a : ProxyARP.ARP) : ProxyARP.Ethernet :=
  {| ProxyARP.SrcMAC := ProxyARP.SHA a; ProxyARP.DstMAC := broadcast;
     ProxyARP.EthType := 0x0806; ProxyARP.Payload := arpBytes a |}.

Definition ingress3 : ProxyARP.IngressPort :=
  {| ProxyARP.port_ID := "00:00:00:00:00:01/3"; ProxyARP.port_Number := 3 |}.

Definition arpWorld0 : ProxyARP.World nat :=
  {| ProxyARP.w_env := 0%nat; ProxyARP.w_lookups := [];
     ProxyARP.w_forwarded := []; ProxyARP.w_sent := [];
     ProxyARP.w_log := [] |}.

(** The proxy on this network. *)
Definition proxy :=
  ProxyARP.OnPacketIn nat unit directory decodeARP encodeARP encodeEthernet
    okARPFactory okSend okNext tt ingress3.

(** The frame that answers [request_for_5]. *)
Definition reply_for_5 : ProxyARP.bytes :=
  mac_host9 ++ mac_host5 ++ [x08; x06] ++
  arpBytes (ProxyARP.NewARPReply mac_host5 mac_host9 ip_10_0_0_5 ip_10_0_0_9).

End Samples.

(** ** The rest of the two files *)

(** Notions used to state what [OnDescReply] does. *)
Module DescReplySpec.

Import OpenFlow Session.

(** The entries a profile installs when all goes well. *)
Definition profileChain (p : Profile) : list (FlowMod Instruction) :=
  match p with
  | ProfileHP2920 =>
      [tableMissEntry 0 (InstGotoTable 100);
       tableMissEntry 100 (InstGotoTable 200);
       tableMissEntry 200 (InstApplyAction toController)]
  | ProfileAS4600 => []
  | ProfileDefault => [tableMissEntry 0 (InstApplyAction toController)]
  end.

(** What a table-miss routine leaves alone: the ports and the identity
    of the device, the LLDP record and the log; and it creates at most
    one instruction object, without touching those that exist. *)
Definition framed {conn} (w w' : World conn) : Prop :=
  dev_ports (w_device w') = dev_ports (w_device w) /\
  dev_ID (w_device w') = dev_ID (w_device w) /\
  w_lldp w' = w_lldp w /\
  w_log w' = w_log w /\
  exists objs, w_heap w' = w_heap w ++ objs /\ (length objs <= 1)%nat.

End DescReplySpec.

(** What the loop of [OnPortDescReply] tests on a port. *)
Module PortTests.

Import Session.

(** [!(p.Number() > of13.OFPP_MAX)] *)
Definition tracked (OFPP_MAX : Z) (p : Port) : bool :=
  negb (Number p >? OFPP_MAX).

(** [!p.IsPortDown() && !p.IsLinkDown()] *)
Definition isUp (p : Port) : bool :=
  negb (IsPortDown p) && negb (IsLinkDown p).

Definition isPortDebug (e : LogEntry) : bool :=
  match e with
  | LogDebugPort _ _ _ => true
  | LogErrLLDP _ => false
  end.

Definition portDebug (p : Port) : LogEntry :=
  LogDebugPort (Number p) (negb (IsPortDown p)) (negb (IsLinkDown p)).

End PortTests.

(** [OnDeviceUp] of [proxyarp/arp.go] and what it calls. *)
Module DeviceUp.

Import OpenFlow ProxyARP.

(** [net.IPv4(a, b, c, d)]: the address in its 16-byte form. *)
Definition IPv4 (a b c d : byte) : bytes := v4InV6Prefix ++ [a; b; c; d].

Definition broadcastMAC : bytes := [xff; xff; xff; xff; xff; xff].

(** The packet-out that floods a frame: in-port "controller", one
    output action whose port is left as [NewOutPort] made it. *)
Definition floodOut (data : bytes) : PacketOut :=
  {| po_inPort := Some InPortController;
     po_action := Some {| act_outPort := Some OutPortUnset |};
     po_data := Some data |}.

Section Handler.

(** The collaborators, as for [OnPacketIn]; the factory and the send
    operation are those of the device at hand.  [NewARPRequest] is
    [protocol.NewARPRequest(sha, spa, tpa)], and [nextDeviceUp] is
    [BaseProcessor.OnDeviceUp]. *)
Variable env : Type.
Variable Finder : Type.
Variable Device : Type.
Variable NewARPRequest : bytes -> bytes -> bytes -> ARP.
Variable MarshalARP : ARP -> result bytes.
Variable MarshalEthernet : Ethernet -> result bytes.
Variable factory : Device -> FactoryCall -> env -> option error * env.
Variable SendMessage : Device -> PacketOut -> env -> option error * env.
Variable nextDeviceUp : Finder -> Device -> env -> option error * env.

Record UpWorld : Type := {
  up_world : World env;
  up_forwarded : list Device    (* events handed to [nextDeviceUp] *)
}.

(** A computation on the proxy's world, run inside [UpWorld]. *)
Definition onWorld {A} (m : M (World env) A) : M UpWorld A :=
  fun s =>
    let '(r, w') := m (up_world s) in
    (r, {| up_world := w'; up_forwarded := up_forwarded s |}).

Definition makeARPAnnouncement (ip mac : bytes) : M (World env) bytes :=
  (let v := NewARPRequest mac ip ip in
   do anon <- liftResult env (MarshalARP v) ;;
   let eth := {| SrcMAC := mac;
                 DstMAC := [xff; xff; xff; xff; xff; xff];
                 EthType := 0x0806; Payload := anon |} in
   liftResult env (MarshalEthernet eth))%go.

Definition sendARPAnnouncement (device : Device) (packet : bytes)
  : M (World env) unit :=
  (let inPort := NewInPort in
   let inPort := SetInPortController inPort in
   do action <- NewAction env (factory device) ;;
   (* Flood *)
   let action := SetOutPort NewOutPort action in
   do out <- NewPacketOut env (factory device) ;;
   let out := SetInPort inPort out in
   let out := SetAction action out in
   let out := SetData packet out in
   callSendMessage env (SendMessage device) out)%go.

(** [r.BaseProcessor.OnDeviceUp(finder, device)] *)
Definition forwardDeviceUp (finder : Finder) (device : Device) : M UpWorld unit :=
  fun s =>
    let '(r, e') := nextDeviceUp finder device (w_env (up_world s)) in
    liftErr r {| up_world := set_env env e' (up_world s);
                 up_forwarded := up_forwarded s ++ [device] |}.

Definition OnDeviceUp (finder : Finder) (device : Device) : M UpWorld unit :=
  (do anon <- onWorld (orWrap "making ARP announcement: "
                         (makeARPAnnouncement
                            (IPv4 xdf x82 x7a x01)
                            [x00; x01; xe8; x8b; x64; x42])) ;;
   run onWorld (orWrap "sending ARP announcement: "
                  (sendARPAnnouncement device anon)) ;;
   forwardDeviceUp finder device)%go.

End Handler.

Arguments up_world {env Device} _.
Arguments up_forwarded {env Device} _.

End DeviceUp.

(** The address pair that [OnDeviceUp] announces. *)
Module DeviceUpSpec.

Import ProxyARP.

Definition announcedIP : bytes := DeviceUp.IPv4 xdf x82 x7a x01.
Definition announcedMAC : bytes := [x00; x01; xe8; x8b; x64; x42].

(** The frame that carries the announcement, given its encoded payload. *)
Definition announcementFrame (payload : bytes) : Ethernet :=
  {| SrcMAC := announcedMAC; DstMAC := DeviceUp.broadcastMAC;
     EthType := 0x0806; Payload := payload |}.

End DeviceUpSpec.

(** Concrete inputs for the handlers above. *)
Module MoreSamples.

Import OpenFlow.

(** A writer that fails on every call; the state counts the calls. *)
Definition brokenWrite (m : Session.FlowMod Session.Instruction) (n : nat)
  : option error * nat := (Some "broken pipe"%string, S n).

Definition port2_down : Session.Port :=
  {| Session.Number := 2;
     Session.IsPortDown := true; Session.IsLinkDown := false |}.

(** An IPv4 frame. *)
Definition ip_frame : ProxyARP.Ethernet :=
  {| ProxyARP.SrcMAC := Samples.mac_host9;
     ProxyARP.DstMAC := Samples.mac_host5;
     ProxyARP.EthType := 0x0800;
     ProxyARP.Payload := [x45; x00] |}.

(** An ARP reply, as a host would send it. *)
Definition arp_reply_frame : ProxyARP.Ethernet :=
  Samples.frameOf
    (ProxyARP.NewARPReply Samples.mac_host5 Samples.mac_host9
       Samples.ip_10_0_0_5 Samples.ip_10_0_0_9).

(** A truncated ARP frame. *)
Definition short_arp_frame : ProxyARP.Ethernet :=
  {| ProxyARP.SrcMAC := Samples.mac_host9;
     ProxyARP.DstMAC := Samples.broadcast;
     ProxyARP.EthType := 0x0806;
     ProxyARP.Payload := [x00; x01] |}.

(** A directory that is out of service. *)
Definition downDirectory (ip : ProxyARP.bytes) (n : nat)
  : (ProxyARP.bytes * bool * option error) * nat :=
  (([], false, Some "database is down"%string), S n).

Definition downProxy :=
  ProxyARP.OnPacketIn nat unit downDirectory Samples.decodeARP
    Samples.encodeARP Samples.encodeEthernet
    Samples.okARPFactory Samples.okSend Samples.okNext tt Samples.ingress3.

(** The device-up handler on the network of [Samples]; devices are
    named by a number. *)
Definition sampleRequest (sha spa tpa : ProxyARP.bytes) : ProxyARP.ARP :=
  Samples.arpRequest sha spa tpa.

Definition okDeviceFactory (d : nat) (k : ProxyARP.FactoryCall) (n : nat)
  : option error * nat := (None, S n).
Definition okDeviceSend (d : nat) (m : ProxyARP.PacketOut) (n : nat)
  : option error * nat := (None, S n).
Definition okNextUp (f : unit) (d : nat) (n : nat)
  : option error * nat := (None, S n).

Definition upWorld0 : DeviceUp.UpWorld nat nat :=
  {| DeviceUp.up_world := Samples.arpWorld0; DeviceUp.up_forwarded := [] |}.

Definition deviceUp (send : nat -> ProxyARP.PacketOut -> nat -> option error * nat) :=
  DeviceUp.OnDeviceUp nat unit nat sampleRequest Samples.encodeARP
    Samples.encodeEthernet okDeviceFactory send okNextUp tt 7%nat.

End MoreSamples.

(** * Properties *)

(** ** The greeting handler *)

Section HandshakeFacts.

Import Session.

Context {conn : Type}.
Variable send : SendCall -> conn -> option error * conn.

Ltac split_send :=
  match goal with
  | |- context [send ?k ?c] =>
      let E := fresh "E" in
      destruct (send k c) as [[?|] ?] eqn:E; simpl
  end.

Ltac forall_succeeded H :=
  repeat (apply Forall_cons_1 in H; destruct H as [? H]);
  unfold succeeded in *; simpl in *.

Ltac close_trace :=
  eexists; split; [rewrite <- ?app_assoc; simpl; reflexivity|];
  split; [eexists; reflexivity|];
  split; [simpl; repeat split; first [assumption | congruence | reflexivity]|];
  split; [reflexivity|];
  split;
    [ split; intros H;
        first [ discriminate H | reflexivity
              | solve [repeat constructor]
              | exfalso; forall_succeeded H; congruence ]
    | intros H;
        first [ reflexivity | exfalso; forall_succeeded H; congruence ] ].

(** C1. Whatever the connection does, the helper calls that [OnHello]
    makes are an initial segment of the nine handshake steps in their
    fixed order (greeting, configuration-set, features request, barrier,
    remove-all-flows, barrier, description request, barrier,
    port-description request), made strictly one after the other: each
    call starts on the connection as the previous call left it, and a
    further call is made only after the previous one returned without
    error.  The handler returns success exactly when no send failed,
    and then exactly the nine sends were issued, in that order. *)
Theorem OnHello_nine_sends_in_order (w : HelloWorld conn) :
  exists tr : list (SendEvent conn),
    hw_calls (snd (OnHello conn send w)) = hw_calls w ++ tr /\
    map ev_call tr `prefix_of` handshake_steps /\
    sequential conn send (hw_conn w) tr /\
    hw_conn (snd (OnHello conn send w)) = final_conn conn (hw_conn w) tr /\
    (fst (OnHello conn send w) = Ok tt <-> Forall succeeded tr) /\
    (Forall succeeded tr -> map ev_call tr = handshake_steps).
Proof.
  unfold OnHello, bind, orWrap, callHelper, ret, liftErr, raise.
  repeat (split_send; [solve [close_trace] | ]).
  close_trace.
Qed.

(** X1. A failed handshake: the last send issued is the one that failed,
    every send before it succeeded, none follows it, and the error
    returned is the cause prefixed with the text of that step. *)
Lemma OnHello_failure_report (w : HelloWorld conn) (e : error) :
  fst (OnHello conn send w) = Err e ->
  exists tr ev cause ctx,
    hw_calls (snd (OnHello conn send w)) = hw_calls w ++ tr ++ [ev] /\
    Forall succeeded tr /\
    ev_err ev = Some cause /\
    nth_error step_contexts (length tr) = Some ctx /\
    nth_error handshake_steps (length tr) = Some (ev_call ev) /\
    e = (ctx ++ cause)%string.
Proof.
  unfold OnHello, bind, orWrap, callHelper, ret, liftErr, raise.
  repeat (split_send;
          [ intros [= <-]; rewrite <- ?app_assoc; cbn [app];
            match goal with
            | |- context [hw_calls w ++ ?l] =>
                let n := eval cbv in (length l) in
                exists (firstn (Nat.pred n) l); cbn [firstn Nat.pred]
            end;
            do 3 eexists;
            split; [reflexivity|];
            split; [repeat constructor|];
            repeat split; reflexivity
          | ]).
  discriminate.
Qed.

End HandshakeFacts.

Section HandshakeExamples.

Import Session.

(** On a transport that never fails the nine sends go out, in order. *)
Example OnHello_on_a_good_transport :
  fst (OnHello nat Samples.neverFailing Samples.hello0) = Ok tt /\
  map ev_call (hw_calls (snd (OnHello nat Samples.neverFailing Samples.hello0)))
    = handshake_steps.
Proof. split; reflexivity. Qed.

(** A failure at the fourth send (the first barrier) stops the handshake
    there and is reported under the name of that step. *)
Example OnHello_first_barrier_fails :
  fst (OnHello nat (Samples.failingAt 3) Samples.hello0) =
    Err "failed to send BARRIER_REQUEST: EOF" /\
  map ev_call (hw_calls (snd (OnHello nat (Samples.failingAt 3) Samples.hello0)))
    = [sendHello; sendSetConfig; sendFeaturesRequest; sendBarrierRequest].
Proof. split; reflexivity. Qed.

(** C6 at the ninth step.  When the first eight sends succeed and the
    port-description request fails, all nine sends were issued and the
    ninth is the failed one, but the error that [OnHello] returns reads
    "failed to send DESCRIPTION_REQUEST", the text of step seven: it is
    the very error returned when the description request itself fails
    after six sends. *)
Theorem OnHello_ninth_step_reported_as_seventh :
  fst (OnHello nat (Samples.failingAt 8) Samples.hello0) =
    Err "failed to send DESCRIPTION_REQUEST: EOF" /\
  map ev_call (hw_calls (snd (OnHello nat (Samples.failingAt 8) Samples.hello0)))
    = handshake_steps /\
  fst (OnHello nat (Samples.failingAt 6) Samples.hello0) =
    Err "failed to send DESCRIPTION_REQUEST: EOF" /\
  map ev_call (hw_calls (snd (OnHello nat (Samples.failingAt 6) Samples.hello0)))
    = [sendHello; sendSetConfig; sendFeaturesRequest; sendBarrierRequest;
       sendRemovingAllFlows; sendBarrierRequest; sendDescriptionRequest].
Proof. repeat split; reflexivity. Qed.

End HandshakeExamples.

(** ** Hardware identity and the choice of a profile *)

Section ProfileFacts.

Import Session.

Lemma append_String (a : ascii) (s t : string) :
  (String a s ++ t)%string = String a (s ++ t)%string.
Proof. reflexivity. Qed.

Lemma append_Empty (t : string) : (EmptyString ++ t)%string = t.
Proof. reflexivity. Qed.

Lemma HasPrefix_spec (s pre : string) :
  HasPrefix s pre = true <-> exists rest, s = (pre ++ rest)%string.
Proof.
  unfold HasPrefix. revert s.
  induction pre as [|a pre IH]; intros s; simpl.
  - destruct s; split; eauto.
  - destruct s as [|b s]; simpl.
    + split; [discriminate | intros [rest H]; discriminate H].
    + destruct (ascii_dec a b) as [->|Hab].
      * rewrite IH. split; intros [rest H]; exists rest;
          rewrite append_String in *; congruence.
      * split; [discriminate|].
        intros [rest H]; rewrite append_String in H; congruence.
Qed.

Lemma Contains_spec (s sub : string) :
  Contains s sub = true <->
  exists before after, s = (before ++ sub ++ after)%string.
Proof.
  induction s as [|a s IH].
  - change (Contains EmptyString sub) with (HasPrefix EmptyString sub || false).
    rewrite orb_true_iff, HasPrefix_spec. split.
    + intros [[rest H]|H]; [|discriminate H]. exists EmptyString, rest. exact H.
    + intros ([|b before] & after & H); [left; eauto | discriminate H].
  - change (Contains (String a s) sub)
      with (HasPrefix (String a s) sub || Contains s sub).
    rewrite orb_true_iff, HasPrefix_spec, IH. split.
    + intros [[rest H]|(before & after & H)].
      * exists EmptyString, rest. exact H.
      * exists (String a before), after. rewrite append_String. congruence.
    + intros ([|b before] & after & H).
      * left. eauto.
      * right. exists before, after. rewrite append_String in H. congruence.
Qed.

Lemma HasPrefix_startsWith (s pre : string) :
  HasPrefix s pre = true <-> startsWith s pre.
Proof. apply HasPrefix_spec. Qed.

Lemma Contains_occursIn (s sub : string) :
  Contains s sub = true <-> occursIn sub s.
Proof. apply Contains_spec. Qed.

Lemma isHP2920_24G_spec (v : DescReply) :
  isHP2920_24G v = true <->
  startsWith (Manufacturer v) "HP" /\ startsWith (Hardware v) "2920-24G".
Proof.
  unfold isHP2920_24G.
  now rewrite andb_true_iff, !HasPrefix_startsWith.
Qed.

Lemma isAS460054_T_spec (v : DescReply) :
  isAS460054_T v = true <-> occursIn "AS4600-54T" (Hardware v).
Proof. apply Contains_occursIn. Qed.

(** C2, as the code has it.  The profile is a function of the
    manufacturer and hardware strings alone and is exactly one of the
    three.  Profile A is selected exactly when the manufacturer string
    starts with "HP" and the hardware string starts with "2920-24G";
    Profile B exactly when that is not the case and the hardware string
    contains "AS4600-54T"; the default profile exactly when neither
    holds.  [OnDescReply] runs the table-miss routine of the selected
    profile. *)
Theorem selectedProfile_characterised (v : DescReply) :
  let isA := startsWith (Manufacturer v) "HP" /\
             startsWith (Hardware v) "2920-24G" in
  let isB := occursIn "AS4600-54T" (Hardware v) in
  (selectedProfile v = ProfileHP2920 <-> isA) /\
  (selectedProfile v = ProfileAS4600 <-> ~ isA /\ isB) /\
  (selectedProfile v = ProfileDefault <-> ~ isA /\ ~ isB) /\
  selectedProfile v =
    selectedProfile {| Manufacturer := Manufacturer v; Hardware := Hardware v;
                       Software := ""; Serial := ""; Description := "" |} /\
  (forall conn factory write,
      OnDescReply conn factory write v =
      match selectedProfile v with
      | ProfileHP2920 => setHP2920TableMiss conn factory write
      | ProfileAS4600 => setAS4600TableMiss conn
      | ProfileDefault => setDefaultTableMiss conn factory write
      end).
Proof.
  intros isA isB.
  assert (HA : isHP2920_24G v = true <-> isA) by apply isHP2920_24G_spec.
  assert (HB : isAS460054_T v = true <-> isB) by apply isAS460054_T_spec.
  assert (Hdisp : forall conn factory write,
      OnDescReply conn factory write v =
      match selectedProfile v with
      | ProfileHP2920 => setHP2920TableMiss conn factory write
      | ProfileAS4600 => setAS4600TableMiss conn
      | ProfileDefault => setDefaultTableMiss conn factory write
      end).
  { intros. unfold OnDescReply, selectedProfile.
    destruct (isHP2920_24G v); [reflexivity|].
    destruct (isAS460054_T v); reflexivity. }
  unfold selectedProfile in *.
  change (isHP2920_24G {| Manufacturer := Manufacturer v; Hardware := Hardware v;
                          Software := ""; Serial := ""; Description := "" |})
    with (isHP2920_24G v).
  change (isAS460054_T {| Manufacturer := Manufacturer v; Hardware := Hardware v;
                          Software := ""; Serial := ""; Description := "" |})
    with (isAS460054_T v).
  destruct (isHP2920_24G v) eqn:EA; [|destruct (isAS460054_T v) eqn:EB].
  - assert isA by now apply HA.
    repeat split; try discriminate; try exact Hdisp;
      unfold isA, isB in *; tauto.
  - assert (~ isA) by (intros H; apply HA in H; discriminate).
    assert isB by now apply HB.
    repeat split; try discriminate; try exact Hdisp;
      unfold isA, isB in *; tauto.
  - assert (~ isA) by (intros H; apply HA in H; discriminate).
    assert (~ isB) by (intros H'; apply HB in H'; discriminate).
    repeat split; try discriminate; try exact Hdisp;
      unfold isA, isB in *; tauto.
Qed.

(** C2, as the spec words it, fails on a reply that meets both
    conditions: its hardware string contains "AS4600-54T", yet the
    [switch] tests the HP 2920-24G prefix first and takes Profile A. *)
Lemma overlapping_reply_takes_profile_A :
  occursIn "AS4600-54T" (Hardware Samples.overlapping_reply) /\
  isAS460054_T Samples.overlapping_reply = true /\
  selectedProfile Samples.overlapping_reply = ProfileHP2920 /\
  selectedProfile Samples.overlapping_reply <> ProfileAS4600 /\
  OnDescReply nat Samples.okFactory Samples.okWrite Samples.overlapping_reply =
    setHP2920TableMiss nat Samples.okFactory Samples.okWrite.
Proof.
  split; [exists "2920-24G "%string, ""%string; reflexivity|].
  repeat split; try reflexivity. discriminate.
Qed.

End ProfileFacts.

(** ** Table-miss installation *)

Section TableMissFacts.

Import OpenFlow Session.

Context {conn : Type}.
Variable factory : FactoryCall -> conn -> option error * conn.
Variable write : FlowMod Instruction -> conn -> option error * conn.

Lemma heap_cell_set (h : list Instruction) (x y : Instruction) :
  <[length h := y]> (h ++ [x]) = h ++ [y].
Proof.
  rewrite insert_app_r_alt by lia. now rewrite Nat.sub_diag.
Qed.

Lemma heap_cell_get (h : list Instruction) (x : Instruction) :
  (h ++ [x]) !! length h = Some x.
Proof. now apply list_lookup_middle. Qed.

Ltac call_collaborator :=
  match goal with
  | |- context [factory ?k ?c] =>
      destruct (factory k c) as [[?|] ?] eqn:?
  | |- context [write ?m ?c] =>
      destruct (write m c) as [[?|] ?] eqn:?
  end.

Ltac run_handler :=
  unfold setHP2920TableMiss, setDefaultTableMiss, setAS4600TableMiss,
    setTableMiss, NewInstruction, NewMatch, NewFlowMod, NewAction,
    GotoTable, ApplyAction, Write, callFactory, orWrap, bind, ret,
    gets, modify, liftErr, raise;
  cbn [w_conn w_heap w_written w_device set_conn set_heap add_written
       on_device fst snd].

Ltac read_heap :=
  rewrite ?heap_cell_set; unfold serialise;
  cbn [fm_command fm_cookie fm_tableID fm_idleTimeout fm_hardTimeout
       fm_priority fm_match fm_instruction
       SetCookie SetTableID SetIdleTimeout SetHardTimeout SetPriority
       SetFlowMatch SetFlowInstruction newFlowMod];
  rewrite ?heap_cell_get, <- ?app_assoc.

Ltac close_written :=
  read_heap;
  first [ exists []; split; [symmetry; apply app_nil_r|]
        | eexists; split; [reflexivity|] ];
  split; [eexists; reflexivity|];
  split; intros H;
    first [discriminate H | congruence | split; reflexivity | reflexivity].

(** What [setHP2920TableMiss] writes, whatever the collaborators do: an
    initial segment of the chain 0 -> 100 -> 200 -> controller; all of
    it, followed by the new default table, exactly when it succeeds. *)
Lemma setHP2920TableMiss_written (w : World conn) :
  let r := setHP2920TableMiss conn factory write w in
  exists new,
    w_written (snd r) = w_written w ++ new /\
    new `prefix_of`
      [tableMissEntry 0 (InstGotoTable 100);
       tableMissEntry 100 (InstGotoTable 200);
       tableMissEntry 200 (InstApplyAction toController)] /\
    (fst r = Ok tt ->
       new = [tableMissEntry 0 (InstGotoTable 100);
              tableMissEntry 100 (InstGotoTable 200);
              tableMissEntry 200 (InstApplyAction toController)] /\
       dev_flowTableID (w_device (snd r)) = 200) /\
    (fst r <> Ok tt -> w_device (snd r) = w_device w).
Proof.
  run_handler.
  repeat (call_collaborator; cbn; [solve [close_written] | ]).
  close_written.
Qed.

Lemma setDefaultTableMiss_written (w : World conn) :
  let r := setDefaultTableMiss conn factory write w in
  exists new,
    w_written (snd r) = w_written w ++ new /\
    new `prefix_of` [tableMissEntry 0 (InstApplyAction toController)] /\
    (fst r = Ok tt ->
       new = [tableMissEntry 0 (InstApplyAction toController)] /\
       dev_flowTableID (w_device (snd r)) = 0) /\
    (fst r <> Ok tt -> w_device (snd r) = w_device w).
Proof.
  run_handler.
  repeat (call_collaborator; cbn; [solve [close_written] | ]).
  close_written.
Qed.

Lemma tableMissEntry_isTableMiss (t : Z) (i : Instruction) :
  isTableMiss (tableMissEntry t i).
Proof. unfold isTableMiss, tableMissEntry; cbn. repeat split; lia. Qed.

Lemma Forall_prefix_of {A} (P : A -> Prop) (l1 l2 : list A) :
  l1 `prefix_of` l2 -> Forall P l2 -> Forall P l1.
Proof. intros [k ->] H. now apply Forall_app in H. Qed.

(** X2. The handler does succeed when no collaborator call fails:
    [OnDescReply] returns success for every reply when no factory call
    and no write fails. *)
Lemma OnDescReply_succeeds (v : DescReply) (w : World conn) :
  (forall k c, fst (factory k c) = None) ->
  (forall m c, fst (write m c) = None) ->
  fst (OnDescReply conn factory write v w) = Ok tt.
Proof.
  intros Hf Hw. unfold OnDescReply.
  destruct (isHP2920_24G v); [|destruct (isAS460054_T v)]; [| reflexivity |];
    run_handler;
    repeat (call_collaborator; cbn;
            [ match goal with
              | E : factory ?k ?c = (Some _, _) |- _ =>
                  pose proof (Hf k c) as X; rewrite E in X; discriminate X
              | E : write ?m ?c = (Some _, _) |- _ =>
                  pose proof (Hw m c) as X; rewrite E in X; discriminate X
              end
            | ]);
    reflexivity.
Qed.

(** C3. When [OnDescReply] returns without error: for a Profile A
    reply it has written exactly three table-miss entries, in this
    order: table 0 with go-to-table 100, table 100 with go-to-table
    200, table 200 with the action output-to-controller, and has set
    the device's flow-table identifier to 200; for a default-profile
    reply it has written exactly one table-miss entry, table 0 with the
    action output-to-controller, and has set the identifier to 0. *)
Theorem OnDescReply_installs_profile_entries (v : DescReply) (w : World conn) :
  fst (OnDescReply conn factory write v w) = Ok tt ->
  let w' := snd (OnDescReply conn factory write v w) in
  (selectedProfile v = ProfileHP2920 ->
     w_written w' =
       w_written w ++
       [tableMissEntry 0 (InstGotoTable 100);
        tableMissEntry 100 (InstGotoTable 200);
        tableMissEntry 200 (InstApplyAction toController)] /\
     dev_flowTableID (w_device w') = 200) /\
  (selectedProfile v = ProfileDefault ->
     w_written w' =
       w_written w ++ [tableMissEntry 0 (InstApplyAction toController)] /\
     dev_flowTableID (w_device w') = 0).
Proof.
  unfold OnDescReply, selectedProfile.
  destruct (isHP2920_24G v); [|destruct (isAS460054_T v)];
    intros Hok; cbv zeta.
  - split; [intros _|discriminate].
    destruct (setHP2920TableMiss_written w) as (new & Hw & _ & Hall & _).
    destruct (Hall Hok) as [-> Hid]. now split.
  - split; discriminate.
  - split; [discriminate|intros _].
    destruct (setDefaultTableMiss_written w) as (new & Hw & _ & Hall & _).
    destruct (Hall Hok) as [-> Hid]. now split.
Qed.

(** C4. For a Profile B reply (the hardware string contains
    "AS4600-54T" and the reply is not an HP 2920-24G) the handler
    returns success and leaves the whole world as it was: nothing is
    written to the connection, no factory call is made, and the device,
    its flow-table identifier included, is untouched. *)
Theorem OnDescReply_profile_B_is_noop (v : DescReply) (w : World conn) :
  selectedProfile v = ProfileAS4600 ->
  OnDescReply conn factory write v w = (Ok tt, w).
Proof.
  unfold OnDescReply, selectedProfile.
  destruct (isHP2920_24G v); [discriminate|].
  destruct (isAS460054_T v); [reflexivity|discriminate].
Qed.

(** C5. Every flow entry that [setTableMiss] writes, for any table and
    any instruction object, and so every entry that [OnDescReply]
    writes under any profile and whatever the collaborators do, keeps
    the table-miss contract: wildcard match, cookie (an unsigned 64-bit
    value) with bit 63 set, idle timeout 0, hard timeout 0, priority 0. *)
Theorem table_miss_entries_keep_contract (w : World conn) :
  (forall tableID inst,
      exists new,
        w_written (snd (setTableMiss conn factory write tableID inst w)) =
          w_written w ++ new /\
        Forall isTableMiss new) /\
  (forall v,
      exists new,
        w_written (snd (OnDescReply conn factory write v w)) =
          w_written w ++ new /\
        Forall isTableMiss new).
Proof.
  split.
  - intros tableID inst. run_handler.
    assert (Hnew : forall m,
      isTableMiss m ->
      exists new, w_written w ++ [m] = w_written w ++ new /\
                  Forall isTableMiss new)
      by (intros m Hm; exists [m]; split; [reflexivity | now constructor]).
    assert (Hnil : exists new, w_written w = w_written w ++ new /\
                               Forall isTableMiss new)
      by (exists []; split; [symmetry; apply app_nil_r | constructor]).
    assert (Hm : forall i,
      isTableMiss
        (serialise (w_heap w)
           (SetFlowInstruction i
              (SetFlowMatch wildcard
                 (SetPriority 0
                    (SetHardTimeout 0
                       (SetIdleTimeout 0
                          (SetTableID tableID
                             (SetCookie (Z.shiftl 1 63)
                                (newFlowMod FlowAdd))))))))))
      by (intros i; unfold isTableMiss; cbn;
          repeat split; first [reflexivity | discriminate]).
    repeat (call_collaborator; cbn;
            [ first [exact Hnil | apply Hnew, Hm] | ]).
    apply Hnew, Hm.
  - intros v. unfold OnDescReply.
    destruct (isHP2920_24G v); [|destruct (isAS460054_T v)].
    + destruct (setHP2920TableMiss_written w) as (new & Hw & Hpre & _).
      exists new. split; [exact Hw|].
      eapply Forall_prefix_of; [exact Hpre|].
      repeat constructor; apply tableMissEntry_isTableMiss.
    + exists []. split; [symmetry; apply app_nil_r | constructor].
    + destruct (setDefaultTableMiss_written w) as (new & Hw & Hpre & _).
      exists new. split; [exact Hw|].
      eapply Forall_prefix_of; [exact Hpre|].
      repeat constructor; apply tableMissEntry_isTableMiss.
Qed.

End TableMissFacts.
Section TableMissExamples.

Import OpenFlow Session.

(** The hypothesis of C3 at work: an HP 2920-24G and an Open vSwitch on
    a connection that never fails. *)
Lemma OnDescReply_installs_profile_entries_witness :
  (w_written (snd (OnDescReply nat Samples.okFactory Samples.okWrite
                     Samples.hp_reply Samples.world0)) =
     [tableMissEntry 0 (InstGotoTable 100);
      tableMissEntry 100 (InstGotoTable 200);
      tableMissEntry 200 (InstApplyAction toController)] /\
   dev_flowTableID
     (w_device (snd (OnDescReply nat Samples.okFactory Samples.okWrite
                       Samples.hp_reply Samples.world0))) = 200) /\
  (w_written (snd (OnDescReply nat Samples.okFactory Samples.okWrite
                     Samples.other_reply Samples.world0)) =
     [tableMissEntry 0 (InstApplyAction toController)] /\
   dev_flowTableID
     (w_device (snd (OnDescReply nat Samples.okFactory Samples.okWrite
                       Samples.other_reply Samples.world0))) = 0).
Proof.
  split.
  - apply (OnDescReply_installs_profile_entries
             Samples.okFactory Samples.okWrite
             Samples.hp_reply Samples.world0); reflexivity.
  - apply (OnDescReply_installs_profile_entries
             Samples.okFactory Samples.okWrite
             Samples.other_reply Samples.world0); reflexivity.
Defined.

(** The three messages of Profile A were built around one instruction
    object: after the handler it is the only object in the store and
    holds what was set last, while each message went out with what the
    object held when it was written. *)
Example one_instruction_object_three_messages :
  w_heap (snd (OnDescReply nat Samples.okFactory Samples.okWrite
                 Samples.hp_reply Samples.world0)) =
    [InstApplyAction toController] /\
  map fm_instruction
    (w_written (snd (OnDescReply nat Samples.okFactory Samples.okWrite
                       Samples.hp_reply Samples.world0))) =
    [Some (InstGotoTable 100); Some (InstGotoTable 200);
     Some (InstApplyAction toController)].
Proof. split; reflexivity. Qed.

Lemma OnDescReply_profile_B_is_noop_witness :
  selectedProfile Samples.as4600_reply = ProfileAS4600 /\
  OnDescReply nat Samples.okFactory Samples.okWrite
    Samples.as4600_reply Samples.world0 = (Ok tt, Samples.world0).
Proof.
  split; [reflexivity|].
  apply (OnDescReply_profile_B_is_noop Samples.okFactory Samples.okWrite).
  reflexivity.
Defined.

End TableMissExamples.

(** ** Ports *)

Section PortFacts.

Import OpenFlow Session.

Context {conn : Type}.
Variable sendLLDP : string -> Port -> conn -> option error * conn.
Variable OFPP_MAX : Z.

Local Abbreviation body := (portDescBody conn sendLLDP OFPP_MAX).

Lemma portDescBody_out_of_range (p : Port) (w : World conn) :
  Number p > OFPP_MAX -> body p w = (Ok tt, w).
Proof.
  intros Hp. unfold portDescBody.
  destruct (Z.gtb_spec (Number p) OFPP_MAX); [reflexivity | lia].
Qed.

(** A pass of the loop body never fails, and never touches the entry
    of a port number above [OFPP_MAX]. *)
Lemma portDescBody_frame (q : Port) (w : World conn) (n : Z) :
  n > OFPP_MAX ->
  fst (body q w) = Ok tt /\
  dev_ports (w_device (snd (body q w))) !! n = dev_ports (w_device w) !! n.
Proof.
  intros Hn. unfold portDescBody.
  destruct (Z.gtb_spec (Number q) OFPP_MAX) as [Hq|Hq]; [now split|].
  unfold bind, modify, attempt, callLLDP, liftErr, ret, raise.
  destruct (negb (IsPortDown q) && negb (IsLinkDown q));
    [destruct (sendLLDP _ _ _) as [[err|] c]|];
    cbn; (split; [reflexivity|]);
    apply lookup_insert_ne; lia.
Qed.

Lemma forEach_frame (l : list Port) (w : World conn) (n : Z) :
  n > OFPP_MAX ->
  fst (forEach conn l body w) = Ok tt /\
  dev_ports (w_device (snd (forEach conn l body w))) !! n =
    dev_ports (w_device w) !! n.
Proof.
  intros Hn. revert w.
  induction l as [|q l IH]; intros w; [now split|].
  cbn [forEach]. unfold bind.
  destruct (portDescBody_frame q w n Hn) as [Hok Hports].
  destruct (body q w) as [[[]|e] w1]; [|discriminate Hok].
  cbn in Hports. rewrite <- Hports. apply IH.
Qed.

Lemma forEach_skip (before after : list Port) (p : Port) (w : World conn) :
  Number p > OFPP_MAX ->
  forEach conn (before ++ p :: after) body w =
  forEach conn (before ++ after) body w.
Proof.
  intros Hp. revert w.
  induction before as [|q l IH]; intros w; cbn [forEach app]; unfold bind.
  - now rewrite portDescBody_out_of_range.
  - destruct (body q w) as [[[]|e] w1]; [apply IH | reflexivity].
Qed.

Lemma forEach_all_out_of_range (l : list Port) (w : World conn) :
  Forall (fun q => Number q > OFPP_MAX) l ->
  forEach conn l body w = (Ok tt, w).
Proof.
  induction 1 as [|q l Hq _ IH]; [reflexivity|].
  cbn [forEach]. unfold bind. now rewrite portDescBody_out_of_range.
Qed.

(** C9. Let [p] be a port whose number is above [OFPP_MAX].
    In a port-description reply the loop passes over [p] without any
    effect; the reply is processed exactly as the reply without [p];
    whatever else the reply reports, the handler returns success and
    the device's entry for the number of [p] is what it was (the port
    is neither added nor updated); a reply that reports only such ports
    leaves the whole world, the port set included, unchanged.  A
    port-status notification for [p] returns success and changes
    nothing. *)
Theorem ports_above_OFPP_MAX_are_ignored (p : Port) :
  Number p > OFPP_MAX ->
  (forall w, body p w = (Ok tt, w)) /\
  (forall before after w,
      OnPortDescReply conn sendLLDP OFPP_MAX {| Ports := before ++ p :: after |} w =
      OnPortDescReply conn sendLLDP OFPP_MAX {| Ports := before ++ after |} w) /\
  (forall v w,
      fst (OnPortDescReply conn sendLLDP OFPP_MAX v w) = Ok tt /\
      dev_ports (w_device (snd (OnPortDescReply conn sendLLDP OFPP_MAX v w)))
        !! Number p = dev_ports (w_device w) !! Number p) /\
  (forall v w,
      Forall (fun q => Number q > OFPP_MAX) (Ports v) ->
      OnPortDescReply conn sendLLDP OFPP_MAX v w = (Ok tt, w)) /\
  (forall w, OnPortStatus conn OFPP_MAX {| StatusPort := p |} w = (Ok tt, w)).
Proof.
  intros Hp. repeat split.
  - intros w. now apply portDescBody_out_of_range.
  - intros before after w. unfold OnPortDescReply, bind. cbn [Ports].
    now rewrite forEach_skip.
  - unfold OnPortDescReply, bind.
    destruct (forEach_frame (Ports v) w (Number p) Hp) as [Hok _].
    destruct (forEach conn (Ports v) body w) as [[[]|e] w1];
      [reflexivity | discriminate Hok].
  - unfold OnPortDescReply, bind.
    destruct (forEach_frame (Ports v) w (Number p) Hp) as [Hok Hports].
    destruct (forEach conn (Ports v) body w) as [[[]|e] w1];
      [exact Hports | discriminate Hok].
  - intros v w Hall. unfold OnPortDescReply, bind.
    now rewrite forEach_all_out_of_range.
  - intros w. unfold OnPortStatus. cbn [StatusPort].
    destruct (Z.gtb_spec (Number p) OFPP_MAX); [reflexivity | lia].
Qed.

End PortFacts.

Section PortExamples.

Import OpenFlow Session.

(** A reply that reports port 1 and the reserved local port tracks
    port 1 only. *)
Example OnPortDescReply_tracks_port_1_only :
  dev_ports (w_device (snd (OnPortDescReply nat Samples.okLLDP Samples.OFPP_MAX
                              {| Ports := [Samples.port1; Samples.local_port] |}
                              Samples.world0)))
  = {[ 1 := Samples.port1 ]}.
Proof. reflexivity. Qed.

Lemma ports_above_OFPP_MAX_are_ignored_witness :
  Number Samples.local_port > Samples.OFPP_MAX /\
  OnPortDescReply nat Samples.okLLDP Samples.OFPP_MAX
    {| Ports := [Samples.local_port] |} Samples.world0 = (Ok tt, Samples.world0) /\
  OnPortStatus nat Samples.OFPP_MAX
    {| StatusPort := Samples.local_port |} Samples.world0 = (Ok tt, Samples.world0).
Proof.
  assert (H : Number Samples.local_port > Samples.OFPP_MAX) by reflexivity.
  split; [exact H|].
  destruct (ports_above_OFPP_MAX_are_ignored Samples.okLLDP Samples.OFPP_MAX
              Samples.local_port H) as (_ & _ & _ & Hall & Hstatus).
  split; [apply Hall; repeat constructor | apply Hstatus].
Defined.

End PortExamples.

(** ** The address-resolution proxy *)

Section ByteFacts.

Import ProxyARP.

Lemma to_N_inj (x y : byte) : Byte.to_N x = Byte.to_N y -> x = y.
Proof.
  intros H. apply (f_equal Byte.of_N) in H.
  rewrite !Byte.of_to_N in H. congruence.
Qed.

(** [bytes.Compare(a, b) == 0] says that the two slices hold the same
    bytes. *)
Lemma Compare_eq_0 (a b : bytes) : Compare a b = 0 <-> a = b.
Proof.
  revert b. induction a as [|x a IH]; intros [|y b]; cbn [Compare];
    try (split; [lia || discriminate | discriminate]); [tauto|].
  destruct (N.ltb_spec (Byte.to_N x) (Byte.to_N y)) as [Hlt|Hge].
  - split; [lia|]. intros [= -> _]. lia.
  - destruct (N.ltb_spec (Byte.to_N y) (Byte.to_N x)) as [Hgt|Hle].
    + split; [lia|]. intros [= -> _]. lia.
    + assert (x = y) by (apply to_N_inj; lia). subst y.
      rewrite IH. split; congruence.
Qed.

Lemma isARPAnnouncement_spec (request : ARP) :
  isARPAnnouncement request = true <->
  IPEqual (SPA request) (TPA request) = true /\ THA request = zeroMAC.
Proof.
  unfold isARPAnnouncement. rewrite <- Compare_eq_0.
  destruct (IPEqual (SPA request) (TPA request));
    destruct (Z.eqb_spec (Compare (THA request) [x00; x00; x00; x00; x00; x00]) 0);
    cbn; unfold zeroMAC; intuition congruence.
Qed.

Lemma app_singleton_neq {A} (l : list A) (x : A) : l ++ [x] <> l.
Proof.
  intros H. apply (f_equal (@length A)) in H.
  rewrite length_app in H. cbn in H. lia.
Qed.

End ByteFacts.

Section ProxyARPFacts.

Import OpenFlow ProxyARP.

Context {env Finder : Type}.
Variable FindMAC : bytes -> env -> (bytes * bool * option error) * env.
Variable UnmarshalARP : bytes -> result ARP.
Variable MarshalARP : ARP -> result bytes.
Variable MarshalEthernet : Ethernet -> result bytes.
Variable factory : FactoryCall -> env -> option error * env.
Variable SendMessage : PacketOut -> env -> option error * env.
Variable next : Finder -> IngressPort -> Ethernet -> env -> option error * env.

Local Abbreviation handler :=
  (OnPacketIn env Finder FindMAC UnmarshalARP MarshalARP MarshalEthernet
     factory SendMessage next).

Ltac enter_arp r Hr Heth Hdec Hop :=
  cbv beta zeta;
  remember (handler _ _ _ _) as r eqn:Hr;
  unfold OnPacketIn, isValidARPAnnouncement, makeARPReply, sendARPReply,
    NewAction, NewPacketOut, callFactory, callSendMessage, callFindMAC,
    forward, log, liftResult, bind, ret, raise, modify, liftErr in Hr;
  rewrite Heth, Hdec in Hr; cbn in Hr; rewrite Hop in Hr; cbn in Hr.

Ltac stopped_before_send r :=
  subst r; cbn;
  split; [reflexivity|];
  split; [left; reflexivity|];
  split; [intros H; discriminate H|];
  intros p d Hp Hd Hf;
  first [ congruence
        | match goal with
          | E : factory ?k ?e = (Some _, _) |- _ =>
              specialize (Hf k e); rewrite E in Hf; discriminate Hf
          end ].

(** An announcement is settled by one directory lookup, for the
    sender's address: the event goes on to the next stage when the
    directory answers with the announced hardware address, and stops
    here otherwise; nothing is sent either way. *)
Lemma announcement_run finder ingress eth arp (w : World env) :
  EthType eth = 0x0806 ->
  UnmarshalARP (Payload eth) = Ok arp ->
  Operation arp = 1 ->
  isARPAnnouncement arp = true ->
  let r := handler finder ingress eth w in
  let answer := fst (FindMAC (SPA arp) (w_env w)) in
  w_sent (snd r) = w_sent w /\
  w_lookups (snd r) = w_lookups w ++ [SPA arp] /\
  ((exists mac, answer = (mac, true, None) /\ mac = SHA arp) /\
     w_forwarded (snd r) = w_forwarded w ++ [(ingress, eth)]
   \/
   ~ (exists mac, answer = (mac, true, None) /\ mac = SHA arp) /\
     w_forwarded (snd r) = w_forwarded w /\
     (snd answer = None -> fst r = Ok tt)).
Proof.
  intros Heth Hdec Hop Hann. enter_arp r Hr Heth Hdec Hop.
  rewrite Hann in Hr. cbn in Hr.
  destruct (FindMAC (SPA arp) (w_env w)) as [[[mac ok] [err|]] e'] eqn:Hfind in *.
  - subst r; cbn. repeat (split; [reflexivity|]). right.
    split; [intros (m & [=] & _)|]. split; [reflexivity | discriminate].
  - destruct ok;
      [destruct (Z.eqb_spec (Compare mac (SHA arp)) 0) as [Hc|Hc]|];
      cbn in Hr.
    + apply Compare_eq_0 in Hc.
      destruct (next finder ingress eth e') as [[e|] e2]; subst r; cbn;
        (repeat (split; [reflexivity|])); left;
        (split; [exists mac; now split | reflexivity]).
    + subst r; cbn. repeat (split; [reflexivity|]). right.
      split; [|now split].
      intros (m & [= <-] & Hm). now apply Hc, Compare_eq_0.
    + subst r; cbn. repeat (split; [reflexivity|]). right.
      split; [intros (m & [=] & _) | now split].
Qed.

(** C8. An ARP announcement (operation code 1, sender protocol address
    equal to the target protocol address, all-zero target hardware
    address) is handed to the next stage, as the same event, if and
    only if the directory answers the lookup of the announced address
    with a MAC, found and without error, and that MAC is the sender
    hardware address of the announcement.  Otherwise the event is not
    forwarded, and the handler returns success unless the directory
    itself failed.  In no case is a message sent. *)
Theorem announcement_forwarded_iff_trusted finder ingress eth arp (w : World env) :
  EthType eth = 0x0806 ->
  UnmarshalARP (Payload eth) = Ok arp ->
  Operation arp = 1 ->
  IPEqual (SPA arp) (TPA arp) = true ->
  THA arp = zeroMAC ->
  let r := handler finder ingress eth w in
  let answer := fst (FindMAC (SPA arp) (w_env w)) in
  let trusted := exists mac, answer = (mac, true, None) /\ mac = SHA arp in
  (w_forwarded (snd r) = w_forwarded w ++ [(ingress, eth)] <-> trusted) /\
  (~ trusted -> w_forwarded (snd r) = w_forwarded w) /\
  (~ trusted -> snd answer = None -> fst r = Ok tt) /\
  w_sent (snd r) = w_sent w.
Proof.
  intros Heth Hdec Hop Hsame Hzero.
  assert (Hann : isARPAnnouncement arp = true)
    by now apply isARPAnnouncement_spec.
  destruct (announcement_run finder ingress eth arp w Heth Hdec Hop Hann)
    as (Hsent & _ & [[Htr Hfw] | (Hno & Hfw & Hok)]); cbv zeta.
  - repeat split; try tauto.
  - repeat split; try tauto.
    rewrite Hfw. intros H. symmetry in H. now apply app_singleton_neq in H.
Qed.

(** C10. For an event classified as an ARP announcement the handler
    sends nothing, in any case, and consults the directory exactly
    once, for the sender protocol address (the validity check): the
    lookup of the target address, which is what leads to a reply, is
    not made. *)
Theorem announcement_never_answered finder ingress eth arp (w : World env) :
  EthType eth = 0x0806 ->
  UnmarshalARP (Payload eth) = Ok arp ->
  Operation arp = 1 ->
  isARPAnnouncement arp = true ->
  let r := handler finder ingress eth w in
  w_sent (snd r) = w_sent w /\
  w_lookups (snd r) = w_lookups w ++ [SPA arp].
Proof.
  intros Heth Hdec Hop Hann.
  destruct (announcement_run finder ingress eth arp w Heth Hdec Hop Hann)
    as (Hsent & Hlook & _).
  now split.
Qed.

(** C7. An ordinary ARP request (operation code 1, not an
    announcement).  If the directory has no entry for the target
    protocol address, the handler returns success, sends nothing and
    does not forward the event.  If the directory maps the target
    protocol address to [mac], the event is not forwarded either and
    at most one message is sent; when the handler returns success, and
    also whenever the encoders and the factory do not fail, exactly one
    message is sent: a packet-out with in-port "controller" and one
    output action to the ingress port, whose data is the Ethernet frame
    from [mac] to the requester's hardware address that carries the ARP
    reply with [mac] as sender hardware address, the requested address
    as sender protocol address, and the requester's hardware and
    protocol addresses as target. *)
Theorem request_answered_from_directory finder ingress eth arp (w : World env) :
  EthType eth = 0x0806 ->
  UnmarshalARP (Payload eth) = Ok arp ->
  Operation arp = 1 ->
  isARPAnnouncement arp = false ->
  let r := handler finder ingress eth w in
  let reply mac :=
    {| HWType := 1; ProtoType := 0x0800; HWLength := 6; ProtoLength := 4;
       Operation := 2;
       SHA := mac; SPA := TPA arp; THA := SHA arp; TPA := SPA arp |} in
  let frame mac payload :=
    {| SrcMAC := mac; DstMAC := SHA arp; EthType := 0x0806;
       Payload := payload |} in
  (forall mac e',
      FindMAC (TPA arp) (w_env w) = ((mac, false, None), e') ->
      fst r = Ok tt /\
      w_sent (snd r) = w_sent w /\
      w_forwarded (snd r) = w_forwarded w) /\
  (forall mac e',
      FindMAC (TPA arp) (w_env w) = ((mac, true, None), e') ->
      w_forwarded (snd r) = w_forwarded w /\
      (w_sent (snd r) = w_sent w \/
       exists m, w_sent (snd r) = w_sent w ++ [m]) /\
      (fst r = Ok tt ->
       exists payload data,
         MarshalARP (reply mac) = Ok payload /\
         MarshalEthernet (frame mac payload) = Ok data /\
         w_sent (snd r) =
           w_sent w ++ [arpReplyOut (port_Number ingress) data]) /\
      (forall payload data,
          MarshalARP (reply mac) = Ok payload ->
          MarshalEthernet (frame mac payload) = Ok data ->
          (forall k e, fst (factory k e) = None) ->
          w_sent (snd r) =
            w_sent w ++ [arpReplyOut (port_Number ingress) data])).
Proof.
  intros Heth Hdec Hop Hann. enter_arp r Hr Heth Hdec Hop.
  rewrite Hann in Hr. unfold NewARPReply in Hr. cbn in Hr.
  split; intros mac e' Hfind; rewrite Hfind in Hr; cbn in Hr.
  - subst r. now cbn.
  - destruct (MarshalARP _) as [payload|ea] eqn:HA in Hr; cbn in Hr;
      [|now stopped_before_send r].
    destruct (MarshalEthernet _) as [data|ee] eqn:HE in Hr; cbn in Hr;
      [|now stopped_before_send r].
    destruct (factory KAction e') as [[e1|] c1] eqn:H1 in Hr; cbn in Hr;
      [now stopped_before_send r|].
    destruct (factory KPacketOut c1) as [[e2|] c2] eqn:H2 in Hr; cbn in Hr;
      [now stopped_before_send r|].
    destruct (SendMessage _ c2) as [[e3|] c3] eqn:H3 in Hr; subst r; cbn;
      (split; [reflexivity|]);
      (split; [right; eexists; reflexivity|]);
      (split; [try discriminate; intros _; exists payload, data; now repeat split|]);
      intros p d Hp Hd _; assert (d = data) by congruence; now subst d.
Qed.

End ProxyARPFacts.

Section ProxyARPExamples.

Import OpenFlow ProxyARP.

Example proxy_answers_known_host :
  Samples.proxy (Samples.frameOf Samples.request_for_5) Samples.arpWorld0 =
  (Ok tt,
   {| w_env := 4%nat;
      w_lookups := [Samples.ip_10_0_0_5];
      w_forwarded := [];
      w_sent := [arpReplyOut 3 Samples.reply_for_5];
      w_log := [DebugReceived "00:00:00:00:00:01/3";
                DebugRequestFor Samples.ip_10_0_0_5 Samples.mac_host5;
                DebugSendingReply "00:00:00:00:00:01/3"] |}).
Proof. reflexivity. Qed.

Example proxy_drops_unknown_host :
  Samples.proxy (Samples.frameOf Samples.request_for_7) Samples.arpWorld0 =
  (Ok tt,
   {| w_env := 1%nat;
      w_lookups := [Samples.ip_10_0_0_7];
      w_forwarded := [];
      w_sent := [];
      w_log := [DebugReceived "00:00:00:00:00:01/3";
                DebugUnknownHost Samples.ip_10_0_0_7] |}).
Proof. reflexivity. Qed.

Example proxy_passes_honest_announcement :
  w_forwarded (snd (Samples.proxy (Samples.frameOf Samples.honest_announcement)
                      Samples.arpWorld0)) =
    [(Samples.ingress3, Samples.frameOf Samples.honest_announcement)].
Proof. reflexivity. Qed.

Example proxy_drops_forged_announcement :
  w_forwarded (snd (Samples.proxy (Samples.frameOf Samples.forged_announcement)
                      Samples.arpWorld0)) = [] /\
  w_sent (snd (Samples.proxy (Samples.frameOf Samples.forged_announcement)
                 Samples.arpWorld0)) = [].
Proof. split; reflexivity. Qed.

Lemma request_answered_from_directory_witness :
  fst (Samples.proxy (Samples.frameOf Samples.request_for_7) Samples.arpWorld0)
    = Ok tt /\
  w_sent (snd (Samples.proxy (Samples.frameOf Samples.request_for_7)
                 Samples.arpWorld0)) = [] /\
  w_sent (snd (Samples.proxy (Samples.frameOf Samples.request_for_5)
                 Samples.arpWorld0)) = [arpReplyOut 3 Samples.reply_for_5].
Proof.
  destruct (request_answered_from_directory
              Samples.directory Samples.decodeARP Samples.encodeARP
              Samples.encodeEthernet Samples.okARPFactory Samples.okSend
              Samples.okNext tt Samples.ingress3
              (Samples.frameOf Samples.request_for_7) Samples.request_for_7
              Samples.arpWorld0 eq_refl eq_refl eq_refl eq_refl)
    as [Hunknown _].
  destruct (Hunknown [] 1%nat eq_refl) as (Hok & Hsent & _).
  destruct (request_answered_from_directory
              Samples.directory Samples.decodeARP Samples.encodeARP
              Samples.encodeEthernet Samples.okARPFactory Samples.okSend
              Samples.okNext tt Samples.ingress3
              (Samples.frameOf Samples.request_for_5) Samples.request_for_5
              Samples.arpWorld0 eq_refl eq_refl eq_refl eq_refl)
    as [_ Hknown].
  destruct (Hknown Samples.mac_host5 1%nat eq_refl) as (_ & _ & _ & Hreply).
  split; [exact Hok|]. split; [exact Hsent|].
  exact (Hreply _ Samples.reply_for_5 eq_refl eq_refl (fun _ _ => eq_refl)).
Defined.

Lemma announcement_forwarded_iff_trusted_witness :
  w_forwarded (snd (Samples.proxy (Samples.frameOf Samples.honest_announcement)
                      Samples.arpWorld0)) =
    [(Samples.ingress3, Samples.frameOf Samples.honest_announcement)] /\
  w_forwarded (snd (Samples.proxy (Samples.frameOf Samples.forged_announcement)
                      Samples.arpWorld0)) = [].
Proof.
  split.
  - apply (announcement_forwarded_iff_trusted
             Samples.directory Samples.decodeARP Samples.encodeARP
             Samples.encodeEthernet Samples.okARPFactory Samples.okSend
             Samples.okNext tt Samples.ingress3
             (Samples.frameOf Samples.honest_announcement)
             Samples.honest_announcement
             Samples.arpWorld0 eq_refl eq_refl eq_refl eq_refl eq_refl).
    exists Samples.mac_host5. split; reflexivity.
  - apply (announcement_forwarded_iff_trusted
             Samples.directory Samples.decodeARP Samples.encodeARP
             Samples.encodeEthernet Samples.okARPFactory Samples.okSend
             Samples.okNext tt Samples.ingress3
             (Samples.frameOf Samples.forged_announcement)
             Samples.forged_announcement
             Samples.arpWorld0 eq_refl eq_refl eq_refl eq_refl eq_refl).
    intros (mac & [= <-] & Hmac). discriminate Hmac.
Defined.

Lemma announcement_never_answered_witness :
  w_sent (snd (Samples.proxy (Samples.frameOf Samples.honest_announcement)
                 Samples.arpWorld0)) = [] /\
  w_lookups (snd (Samples.proxy (Samples.frameOf Samples.honest_announcement)
                    Samples.arpWorld0)) = [Samples.ip_10_0_0_5].
Proof.
  apply (announcement_never_answered
           Samples.directory Samples.decodeARP Samples.encodeARP
           Samples.encodeEthernet Samples.okARPFactory Samples.okSend
           Samples.okNext tt Samples.ingress3
           (Samples.frameOf Samples.honest_announcement)
           Samples.honest_announcement
           Samples.arpWorld0 eq_refl eq_refl eq_refl eq_refl).
Defined.

End ProxyARPExamples.

(** * Further properties *)

(** ** The greeting handler, on failure *)

Section HandshakeFailureExamples.

Import Session.

Lemma OnHello_failure_report_witness :
  exists tr ev cause ctx,
    hw_calls (snd (OnHello nat (Samples.failingAt 3) Samples.hello0)) =
      hw_calls Samples.hello0 ++ tr ++ [ev] /\
    Forall succeeded tr /\
    ev_err ev = Some cause /\
    nth_error step_contexts (length tr) = Some ctx /\
    nth_error handshake_steps (length tr) = Some (ev_call ev) /\
    "failed to send BARRIER_REQUEST: EOF"%string = (ctx ++ cause)%string.
Proof.
  apply (OnHello_failure_report (Samples.failingAt 3) Samples.hello0).
  reflexivity.
Defined.

End HandshakeFailureExamples.

(** ** The description-reply handler, beyond what it installs *)

Section DescReplyFrame.

Import OpenFlow Session DescReplySpec.

Context {conn : Type}.
Variable factory : FactoryCall -> conn -> option error * conn.
Variable write : FlowMod Instruction -> conn -> option error * conn.

Ltac call_collaborator :=
  match goal with
  | |- context [factory ?k ?c] =>
      destruct (factory k c) as [[?|] ?] eqn:?
  | |- context [write ?m ?c] =>
      destruct (write m c) as [[?|] ?] eqn:?
  end.

Ltac run_handler :=
  unfold setHP2920TableMiss, setDefaultTableMiss, setAS4600TableMiss,
    setTableMiss, NewInstruction, NewMatch, NewFlowMod, NewAction,
    GotoTable, ApplyAction, Write, callFactory, orWrap, bind, ret,
    gets, modify, liftErr, raise;
  cbn [w_conn w_heap w_written w_device set_conn set_heap add_written
       on_device fst snd].

Ltac close_frame :=
  rewrite ?heap_cell_set;
  repeat (split; [reflexivity|]);
  first [ exists []; split; [symmetry; apply app_nil_r | cbn; lia]
        | eexists [_]; split; [reflexivity | cbn; lia] ].

Lemma setHP2920TableMiss_framed (w : World conn) :
  framed w (snd (setHP2920TableMiss conn factory write w)).
Proof.
  unfold framed. run_handler.
  repeat (call_collaborator; cbn; [solve [close_frame] | ]).
  close_frame.
Qed.

Lemma setDefaultTableMiss_framed (w : World conn) :
  framed w (snd (setDefaultTableMiss conn factory write w)).
Proof.
  unfold framed. run_handler.
  repeat (call_collaborator; cbn; [solve [close_frame] | ]).
  close_frame.
Qed.

(** X4. Whatever the reply and whatever the collaborators do,
    [OnDescReply] leaves the device's ports and identifier, the LLDP
    record and the log as they were, creates at most one instruction
    object and changes none that existed before. *)
Theorem OnDescReply_frame (v : DescReply) (w : World conn) :
  framed w (snd (OnDescReply conn factory write v w)).
Proof.
  unfold OnDescReply.
  destruct (isHP2920_24G v); [|destruct (isAS460054_T v)].
  - apply setHP2920TableMiss_framed.
  - unfold framed; cbn. repeat (split; [reflexivity|]).
    exists []. split; [symmetry; apply app_nil_r | cbn; lia].
  - apply setDefaultTableMiss_framed.
Qed.

(** X3. When [OnDescReply] fails, the device is exactly as it was (the
    flow-table identifier is set only after the last entry went out),
    while the entries already handed to the writer stay written: they
    are an initial segment of the chain of the selected profile. *)
Theorem OnDescReply_failure_keeps_device (v : DescReply) (w : World conn) (e : error) :
  fst (OnDescReply conn factory write v w) = Err e ->
  w_device (snd (OnDescReply conn factory write v w)) = w_device w /\
  exists new,
    w_written (snd (OnDescReply conn factory write v w)) = w_written w ++ new /\
    new `prefix_of` profileChain (selectedProfile v).
Proof.
  unfold OnDescReply, selectedProfile.
  destruct (isHP2920_24G v); [|destruct (isAS460054_T v)]; intros Hfail.
  - destruct (setHP2920TableMiss_written factory write w)
      as (new & Hw & Hpre & _ & Hdev).
    split; [apply Hdev; congruence | exists new; now split].
  - discriminate Hfail.
  - destruct (setDefaultTableMiss_written factory write w)
      as (new & Hw & Hpre & _ & Hdev).
    split; [apply Hdev; congruence | exists new; now split].
Qed.

End DescReplyFrame.

Section DescReplyExamples.

Import OpenFlow Session DescReplySpec.

Lemma OnDescReply_succeeds_witness :
  fst (OnDescReply nat Samples.okFactory Samples.okWrite
         Samples.hp_reply Samples.world0) = Ok tt.
Proof.
  apply (OnDescReply_succeeds Samples.okFactory Samples.okWrite);
    intros; reflexivity.
Defined.

(** The writer fails on an HP 2920-24G: the first entry was handed to
    it, the error comes back wrapped, the device keeps table 7. *)
Lemma OnDescReply_failure_keeps_device_witness :
  fst (OnDescReply nat Samples.okFactory MoreSamples.brokenWrite
         Samples.hp_reply Samples.world0) =
    Err "failed to set table_miss flow entry: broken pipe" /\
  w_device (snd (OnDescReply nat Samples.okFactory MoreSamples.brokenWrite
                   Samples.hp_reply Samples.world0)) = Samples.device0 /\
  exists new,
    w_written (snd (OnDescReply nat Samples.okFactory MoreSamples.brokenWrite
                      Samples.hp_reply Samples.world0)) = [] ++ new /\
    new `prefix_of` profileChain (selectedProfile Samples.hp_reply).
Proof.
  split; [reflexivity|].
  apply (OnDescReply_failure_keeps_device
           Samples.okFactory MoreSamples.brokenWrite
           Samples.hp_reply Samples.world0
           "failed to set table_miss flow entry: broken pipe").
  reflexivity.
Defined.

End DescReplyExamples.

(** ** Ports that are tracked *)

Section PortTracking.

Import OpenFlow Session PortTests.

Context {conn : Type}.
Variable sendLLDP : string -> Port -> conn -> option error * conn.
Variable OFPP_MAX : Z.

Local Abbreviation body := (portDescBody conn sendLLDP OFPP_MAX).
Local Abbreviation addPort := (fun (d : Device) (p : Port) => AddPort (Number p) p d).

Lemma portDescBody_effects (p : Port) (w : World conn) :
  fst (body p w) = Ok tt /\
  w_device (snd (body p w)) =
    (if tracked OFPP_MAX p then addPort (w_device w) p else w_device w) /\
  w_lldp (snd (body p w)) =
    w_lldp w ++ (if tracked OFPP_MAX p && isUp p then [p] else []) /\
  w_written (snd (body p w)) = w_written w /\
  w_heap (snd (body p w)) = w_heap w /\
  List.filter isPortDebug (w_log (snd (body p w))) =
    List.filter isPortDebug (w_log w) ++
    (if tracked OFPP_MAX p then [portDebug p] else []).
Proof.
  unfold portDescBody, tracked, isUp, portDebug.
  destruct (Number p >? OFPP_MAX); cbn [negb andb].
  - cbn. now rewrite !app_nil_r.
  - unfold bind, modify, attempt, callLLDP, liftErr, ret, raise.
    destruct (negb (IsPortDown p) && negb (IsLinkDown p));
      [destruct (sendLLDP _ _ _) as [[err|] c]|];
      cbn; rewrite ?List.filter_app, ?app_nil_r, <- ?app_assoc; cbn;
      now rewrite ?app_nil_r.
Qed.

Lemma forEach_effects (l : list Port) (w : World conn) :
  let r := forEach conn l body w in
  fst r = Ok tt /\
  w_device (snd r) =
    fold_left addPort (List.filter (tracked OFPP_MAX) l) (w_device w) /\
  w_lldp (snd r) =
    w_lldp w ++ List.filter (fun p => tracked OFPP_MAX p && isUp p) l /\
  w_written (snd r) = w_written w /\
  w_heap (snd r) = w_heap w /\
  List.filter isPortDebug (w_log (snd r)) =
    List.filter isPortDebug (w_log w) ++
    map portDebug (List.filter (tracked OFPP_MAX) l).
Proof.
  revert w. induction l as [|p l IH]; intros w; cbv zeta.
  - cbn. now rewrite !app_nil_r.
  - cbn [forEach]. unfold bind.
    destruct (portDescBody_effects p w) as (Hok & Hd & Hl & Hw & Hh & Hg).
    destruct (body p w) as [[[]|e] w1]; [|discriminate Hok].
    cbn [fst snd] in *.
    destruct (IH w1) as (Hok' & Hd' & Hl' & Hw' & Hh' & Hg').
    rewrite Hok', Hd', Hl', Hw', Hh', Hg', Hd, Hl, Hw, Hh, Hg.
    cbn [List.filter].
    destruct (tracked OFPP_MAX p); destruct (isUp p); cbn;
      rewrite <- ?app_assoc, ?app_nil_r; now repeat split.
Qed.

Lemma fold_addPort_flowTableID (l : list Port) (d : Device) :
  dev_flowTableID (fold_left addPort l d) = dev_flowTableID d /\
  dev_ID (fold_left addPort l d) = dev_ID d.
Proof.
  revert d. induction l as [|p l IH]; intros d; [now split|].
  cbn [fold_left]. destruct (IH (addPort d p)) as [-> ->]. now split.
Qed.

Lemma fold_addPort_reported (l : list Port) (d : Device) (p : Port) :
  In p l ->
  exists q, dev_ports (fold_left addPort l d) !! Number p = Some q /\
            Number q = Number p /\ In q l.
Proof.
  revert d p. induction l as [|x l IH] using rev_ind; intros d p Hin;
    [destruct Hin|].
  rewrite fold_left_app. cbn [fold_left AddPort dev_ports].
  destruct (Z.eq_dec (Number x) (Number p)) as [Heq|Hne].
  - exists x. rewrite <- Heq, lookup_insert_eq.
    split; [reflexivity|]. split; [reflexivity|].
    apply in_or_app; right; now left.
  - apply in_app_or in Hin. destruct Hin as [Hin|[->|[]]]; [|congruence].
    destruct (IH d p Hin) as (q & Hq & Hn & Hq').
    exists q. rewrite lookup_insert_ne by exact Hne.
    split; [exact Hq|]. split; [exact Hn|].
    apply in_or_app; now left.
Qed.

Lemma fold_addPort_others (l : list Port) (d : Device) (n : Z) :
  (forall p, In p l -> Number p <> n) ->
  dev_ports (fold_left addPort l d) !! n = dev_ports d !! n.
Proof.
  revert d. induction l as [|x l IH]; intros d Hn; [reflexivity|].
  cbn [fold_left]. rewrite IH by (intros p Hp; apply Hn; now right).
  cbn [AddPort dev_ports]. apply lookup_insert_ne. apply Hn. now left.
Qed.

(** X5. After a port-description reply the device is what [AddPort]
    makes of it, called once for each reported port whose number is at
    most [OFPP_MAX], in the order of the reply and whatever became of
    the LLDP sends.  So every such port number is tracked afterwards,
    under a port of the reply with that number; a number that no such
    port carries keeps the entry it had; and the flow-table identifier
    and the identity of the device are unchanged. *)
Theorem OnPortDescReply_tracks_reported_ports (v : PortDescReply) (w : World conn) :
  let d' := w_device (snd (OnPortDescReply conn sendLLDP OFPP_MAX v w)) in
  d' = fold_left addPort (List.filter (tracked OFPP_MAX) (Ports v)) (w_device w) /\
  (forall p, In p (Ports v) -> Number p <= OFPP_MAX ->
     exists q, dev_ports d' !! Number p = Some q /\
               Number q = Number p /\ In q (Ports v)) /\
  (forall n, (forall p, In p (Ports v) -> Number p <= OFPP_MAX -> Number p <> n) ->
     dev_ports d' !! n = dev_ports (w_device w) !! n) /\
  dev_flowTableID d' = dev_flowTableID (w_device w) /\
  dev_ID d' = dev_ID (w_device w).
Proof.
  cbv zeta. unfold OnPortDescReply, bind.
  destruct (forEach_effects (Ports v) w) as (Hok & Hd & _).
  destruct (forEach conn (Ports v) body w) as [[[]|e] w1];
    [|discriminate Hok].
  cbn [fst snd ret] in *. rewrite Hd.
  split; [reflexivity|]. split; [|split].
  - intros p Hin Hp.
    destruct (fold_addPort_reported
                (List.filter (tracked OFPP_MAX) (Ports v)) (w_device w) p)
      as (q & Hq & Hn & Hq').
    { apply filter_In. split; [exact Hin|].
      unfold tracked. destruct (Z.gtb_spec (Number p) OFPP_MAX); [lia|reflexivity]. }
    exists q. split; [exact Hq|]. split; [exact Hn|].
    now apply filter_In in Hq'.
  - intros n Hn. apply fold_addPort_others.
    intros p Hp. apply filter_In in Hp. destruct Hp as [Hin Ht].
    apply Hn; [exact Hin|].
    unfold tracked in Ht. destruct (Z.gtb_spec (Number p) OFPP_MAX); [discriminate|lia].
  - apply fold_addPort_flowTableID.
Qed.

(** X6. A port-description reply makes one LLDP send for each reported
    port that is tracked, administratively up and link-up, in the order
    of the reply and no other, also after an LLDP send has failed; it
    writes no flow entry and touches no instruction object. *)
Theorem OnPortDescReply_sends_LLDP_on_live_ports (v : PortDescReply) (w : World conn) :
  let w' := snd (OnPortDescReply conn sendLLDP OFPP_MAX v w) in
  w_lldp w' =
    w_lldp w ++ List.filter (fun p => tracked OFPP_MAX p && isUp p) (Ports v) /\
  w_written w' = w_written w /\
  w_heap w' = w_heap w.
Proof.
  cbv zeta. unfold OnPortDescReply, bind.
  destruct (forEach_effects (Ports v) w) as (Hok & _ & Hl & Hw & Hh & _).
  destruct (forEach conn (Ports v) body w) as [[[]|e] w1];
    [|discriminate Hok].
  cbn [fst snd ret] in *. now repeat split.
Qed.

(** X7. The log of a port-description reply holds one "Port:" debug
    line for each tracked port of the reply, in order, with its number
    and its two flags negated; ports above [OFPP_MAX] leave no line. *)
Theorem OnPortDescReply_logs_tracked_ports (v : PortDescReply) (w : World conn) :
  List.filter isPortDebug
    (w_log (snd (OnPortDescReply conn sendLLDP OFPP_MAX v w))) =
  List.filter isPortDebug (w_log w) ++
  map portDebug (List.filter (tracked OFPP_MAX) (Ports v)).
Proof.
  unfold OnPortDescReply, bind.
  destruct (forEach_effects (Ports v) w) as (Hok & _ & _ & _ & _ & Hg).
  destruct (forEach conn (Ports v) body w) as [[[]|e] w1];
    [|discriminate Hok].
  exact Hg.
Qed.

(** X8. A port-status notification never fails, writes nothing, sends
    no LLDP, logs nothing, and keeps the flow-table identifier and the
    entry of every port number other than the notified one; when the
    notified number is at most [OFPP_MAX], the device then holds the
    notified port under that number. *)
Theorem OnPortStatus_touches_one_port (v : PortStatus) (w : World conn) :
  let r := OnPortStatus conn OFPP_MAX v w in
  fst r = Ok tt /\
  w_conn (snd r) = w_conn w /\
  w_written (snd r) = w_written w /\
  w_lldp (snd r) = w_lldp w /\
  w_log (snd r) = w_log w /\
  dev_flowTableID (w_device (snd r)) = dev_flowTableID (w_device w) /\
  (forall n, n <> Number (StatusPort v) ->
     dev_ports (w_device (snd r)) !! n = dev_ports (w_device w) !! n) /\
  (Number (StatusPort v) <= OFPP_MAX ->
     dev_ports (w_device (snd r)) !! Number (StatusPort v) = Some (StatusPort v)).
Proof.
  cbv zeta. unfold OnPortStatus.
  destruct (Z.gtb_spec (Number (StatusPort v)) OFPP_MAX) as [Hgt|Hle].
  - cbn. repeat split; try reflexivity. lia.
  - cbn. repeat split; try reflexivity.
    + intros n Hn. now apply lookup_insert_ne.
    + intros _. apply lookup_insert_eq.
Qed.

End PortTracking.

Section PortTrackingExamples.

Import OpenFlow Session PortTests.

(** Port 1 is up, port 2 is administratively down, the local port is
    reserved: ports 1 and 2 are tracked, LLDP goes out of port 1 only. *)
Example OnPortDescReply_on_three_ports :
  let w' := snd (OnPortDescReply nat Samples.okLLDP Samples.OFPP_MAX
                   {| Ports := [Samples.port1; MoreSamples.port2_down;
                                Samples.local_port] |}
                   Samples.world0) in
  dev_ports (w_device w') =
    {[ 1 := Samples.port1; 2 := MoreSamples.port2_down ]} /\
  w_lldp w' = [Samples.port1] /\
  w_log w' = [LogDebugPort 1 true true; LogDebugPort 2 false true].
Proof. repeat split; reflexivity. Qed.

End PortTrackingExamples.

(** ** The proxy on everything that is not an ordinary request *)

Section ProxyARPMoreFacts.

Import OpenFlow ProxyARP.

Context {env Finder : Type}.
Variable FindMAC : bytes -> env -> (bytes * bool * option error) * env.
Variable UnmarshalARP : bytes -> result ARP.
Variable MarshalARP : ARP -> result bytes.
Variable MarshalEthernet : Ethernet -> result bytes.
Variable factory : FactoryCall -> env -> option error * env.
Variable SendMessage : PacketOut -> env -> option error * env.
Variable next : Finder -> IngressPort -> Ethernet -> env -> option error * env.

Local Abbreviation handler :=
  (OnPacketIn env Finder FindMAC UnmarshalARP MarshalARP MarshalEthernet
     factory SendMessage next).

Ltac unfold_handler r Hr :=
  cbv beta zeta;
  remember (handler _ _ _ _) as r eqn:Hr;
  unfold OnPacketIn, isValidARPAnnouncement, makeARPReply, sendARPReply,
    NewAction, NewPacketOut, callFactory, callSendMessage, callFindMAC,
    forward, log, liftResult, bind, ret, raise, modify, liftErr in Hr.

Ltac branch Hr :=
  match type of Hr with
  | context [(EthType ?e =? ?k)%Z] => destruct (EthType e =? k)%Z eqn:? in Hr
  | context [UnmarshalARP ?b] => destruct (UnmarshalARP b) eqn:? in Hr
  | context [(Operation ?a =? 1)%Z] => destruct (Operation a =? 1)%Z eqn:? in Hr
  | context [isARPAnnouncement ?a] => destruct (isARPAnnouncement a) eqn:? in Hr
  | context [FindMAC ?ip ?e] =>
      destruct (FindMAC ip e) as [[[? [|]] [?|]] ?] eqn:? in Hr
  | context [(Compare ?a ?b =? 0)%Z] => destruct (Compare a b =? 0)%Z eqn:? in Hr
  | context [MarshalARP ?a] => destruct (MarshalARP a) eqn:? in Hr
  | context [MarshalEthernet ?a] => destruct (MarshalEthernet a) eqn:? in Hr
  | context [factory ?k ?e] => destruct (factory k e) as [[?|] ?] eqn:? in Hr
  | context [SendMessage ?m ?e] => destruct (SendMessage m e) as [[?|] ?] eqn:? in Hr
  | context [next ?f ?i ?x ?e] => destruct (next f i x e) as [[?|] ?] eqn:? in Hr
  end; cbn in Hr.

Lemma grow_nil {A} (l : list A) : l = l ++ [].
Proof. symmetry. apply app_nil_r. Qed.

(** X9. On any packet-in event, whatever the collaborators answer, the
    handler consults the directory at most once and either forwards the
    event once, or sends one message, or does neither, never both; and
    it sends only after it has consulted the directory. *)
Theorem OnPacketIn_at_most_one_effect finder ingress eth (w : World env) :
  let w' := snd (handler finder ingress eth w) in
  exists ls fs ss,
    w_lookups w' = w_lookups w ++ ls /\
    w_forwarded w' = w_forwarded w ++ fs /\
    w_sent w' = w_sent w ++ ss /\
    (length ls <= 1)%nat /\
    (length fs + length ss <= 1)%nat /\
    (ss <> [] -> ls <> []).
Proof.
  unfold_handler r Hr. cbn in Hr.
  repeat branch Hr.
  all: subst r; cbn.
  all: do 3 eexists.
  all: split; [first [apply grow_nil | reflexivity]|].
  all: split; [first [apply grow_nil | reflexivity]|].
  all: split; [first [apply grow_nil | reflexivity]|].
  all: cbn; split; [lia|]; split; [lia|].
  all: first [congruence | intros _; discriminate].
Qed.

(** X10. A frame whose type is not ARP is handed to the next stage as it
    came, and nothing else happens: no directory lookup, no message, no
    log line; the handler returns what the next stage returns. *)
Theorem non_ARP_frames_pass_through finder ingress eth (w : World env) :
  EthType eth <> 0x0806 ->
  let r := handler finder ingress eth w in
  let n := next finder ingress eth (w_env w) in
  fst r = match fst n with None => Ok tt | Some e => Err e end /\
  w_env (snd r) = snd n /\
  w_forwarded (snd r) = w_forwarded w ++ [(ingress, eth)] /\
  w_sent (snd r) = w_sent w /\
  w_lookups (snd r) = w_lookups w /\
  w_log (snd r) = w_log w.
Proof.
  intros Htype. unfold_handler r Hr.
  destruct (Z.eqb_spec (EthType eth) 2054) as [Heq|_] in Hr; [contradiction|].
  cbn in Hr.
  destruct (next finder ingress eth (w_env w)) as [[e|] e'] in *;
    subst r; now cbn.
Qed.

(** X11. An ARP packet whose operation is not 1 (a reply, or anything
    else) is dropped: the handler returns success without consulting
    the directory, forwarding the event or sending a message. *)
Theorem other_ARP_operations_are_dropped finder ingress eth arp (w : World env) :
  EthType eth = 0x0806 ->
  UnmarshalARP (Payload eth) = Ok arp ->
  Operation arp <> 1 ->
  let r := handler finder ingress eth w in
  fst r = Ok tt /\
  w_env (snd r) = w_env w /\
  w_lookups (snd r) = w_lookups w /\
  w_forwarded (snd r) = w_forwarded w /\
  w_sent (snd r) = w_sent w.
Proof.
  intros Htype Hdec Hop. unfold_handler r Hr.
  rewrite Htype, Hdec in Hr. cbn in Hr.
  destruct (Z.eqb_spec (Operation arp) 1) as [Heq|_] in Hr; [contradiction|].
  cbn in Hr. subst r. now cbn.
Qed.

(** X12. When the payload of an ARP frame does not decode, the decoder's
    error is returned as it is, and the event is neither looked up, nor
    forwarded, nor answered. *)
Theorem undecodable_ARP_is_an_error finder ingress eth e (w : World env) :
  EthType eth = 0x0806 ->
  UnmarshalARP (Payload eth) = Err e ->
  let r := handler finder ingress eth w in
  fst r = Err e /\
  w_env (snd r) = w_env w /\
  w_lookups (snd r) = w_lookups w /\
  w_forwarded (snd r) = w_forwarded w /\
  w_sent (snd r) = w_sent w.
Proof.
  intros Htype Hdec. unfold_handler r Hr.
  rewrite Htype, Hdec in Hr. cbn in Hr. subst r. now cbn.
Qed.

(** X13. When the directory fails, on the lookup of the sender address
    of an announcement or of the target address of a request, its error
    is returned as it is, whatever else it answered, and the event is
    neither forwarded nor answered. *)
Theorem directory_failure_is_returned finder ingress eth arp mac ok e e' (w : World env) :
  EthType eth = 0x0806 ->
  UnmarshalARP (Payload eth) = Ok arp ->
  Operation arp = 1 ->
  FindMAC (if isARPAnnouncement arp then SPA arp else TPA arp) (w_env w) =
    ((mac, ok, Some e), e') ->
  let r := handler finder ingress eth w in
  fst r = Err e /\
  w_env (snd r) = e' /\
  w_forwarded (snd r) = w_forwarded w /\
  w_sent (snd r) = w_sent w.
Proof.
  intros Htype Hdec Hop Hdir. unfold_handler r Hr.
  rewrite Htype, Hdec in Hr. cbn in Hr. rewrite Hop in Hr. cbn in Hr.
  destruct (isARPAnnouncement arp); cbn in Hr;
    rewrite Hdir in Hr; cbn in Hr; subst r; now cbn.
Qed.

End ProxyARPMoreFacts.

(** ** What counts as an announcement *)

Section AnnouncementClassification.

Import ProxyARP.

Lemma bytesEqual_eq (a b : bytes) : bytesEqual a b = true <-> a = b.
Proof.
  revert b. induction a as [|x a IH]; intros [|y b]; cbn [bytesEqual];
    try (split; [discriminate | discriminate]); [tauto|].
  rewrite andb_true_iff, IH. split.
  - intros [Hxy ->]. apply Byte.byte_dec_bl in Hxy. now subst.
  - intros [= -> ->]. split; [now apply Byte.byte_dec_lb | reflexivity].
Qed.

(** [net.IP.Equal] in terms of the bytes: the two addresses are the
    same bytes, or one is a 4-byte address and the other is that
    address behind the IPv4-in-IPv6 prefix. *)
Lemma IPEqual_bytes (x y : bytes) :
  IPEqual x y = true <->
  x = y \/
  (length x = 4%nat /\ y = v4InV6Prefix ++ x) \/
  (length y = 4%nat /\ x = v4InV6Prefix ++ y).
Proof.
  unfold IPEqual, IPv4len, IPv6len.
  assert (Hpre : length v4InV6Prefix = 12%nat) by reflexivity.
  destruct (Nat.eqb_spec (length x) (length y)) as [Hlen|Hlen].
  - rewrite bytesEqual_eq. split; [now left|].
    intros [H|[[H4 ->]|[H4 ->]]]; [exact H| |];
      rewrite length_app, Hpre in Hlen; lia.
  - destruct (Nat.eqb_spec (length x) 4) as [Hx|Hx];
      destruct (Nat.eqb_spec (length y) 16) as [Hy|Hy]; cbn [andb].
    + rewrite andb_true_iff, !bytesEqual_eq. split.
      * intros [Ht Hd]. right; left. split; [exact Hx|].
        now rewrite <- (take_drop 12 y), Ht, <- Hd.
      * intros [->|[[_ ->]|[H4 ->]]]; [congruence| |lia].
        now rewrite take_app_length', drop_app_length'.
    + destruct (Nat.eqb_spec (length x) 16); [lia|]. cbn [andb].
      split; [discriminate|].
      intros [->|[[_ ->]|[H4 ->]]]; [congruence| |];
        rewrite length_app, Hpre in *; lia.
    + destruct (Nat.eqb_spec (length x) 16); [lia|]. cbn [andb].
      split; [discriminate|].
      intros [->|[[H4 ->]|[H4 ->]]]; [congruence| |];
        rewrite length_app, Hpre in *; lia.
    + destruct (Nat.eqb_spec (length x) 16) as [Hx16|Hx16];
        destruct (Nat.eqb_spec (length y) 4) as [Hy4|Hy4]; cbn [andb].
      * rewrite andb_true_iff, !bytesEqual_eq. split.
        -- intros [Ht Hd]. right; right. split; [exact Hy4|].
           now rewrite <- (take_drop 12 x), Ht, Hd.
        -- intros [->|[[H4 ->]|[_ ->]]]; [congruence|lia|].
           now rewrite take_app_length', drop_app_length'.
      * split; [discriminate|].
        intros [->|[[H4 ->]|[H4 ->]]]; [congruence|lia|lia].
      * split; [discriminate|].
        intros [->|[[H4 ->]|[H4 ->]]]; [congruence|lia|].
        rewrite length_app, Hpre in *; lia.
      * split; [discriminate|].
        intros [->|[[H4 ->]|[H4 ->]]]; [congruence|lia|lia].
Qed.

(** X14. A request is classified as an announcement exactly when its
    target hardware address is six zero bytes (no more, no fewer) and
    its sender and target protocol addresses are the same address: the
    same bytes, or a 4-byte address on one side and the same address in
    its 16-byte IPv4-in-IPv6 form on the other. *)
Theorem isARPAnnouncement_bytes (request : ARP) :
  isARPAnnouncement request = true <->
  THA request = [x00; x00; x00; x00; x00; x00] /\
  (SPA request = TPA request \/
   (length (SPA request) = 4%nat /\
    TPA request = v4InV6Prefix ++ SPA request) \/
   (length (TPA request) = 4%nat /\
    SPA request = v4InV6Prefix ++ TPA request)).
Proof.
  rewrite isARPAnnouncement_spec, IPEqual_bytes. unfold zeroMAC. tauto.
Qed.

End AnnouncementClassification.

(** ** A device comes up *)

Section DeviceUpFacts.

Import OpenFlow ProxyARP DeviceUp DeviceUpSpec.

Context {env Finder Device : Type}.
Variable NewARPRequest : bytes -> bytes -> bytes -> ARP.
Variable MarshalARP : ARP -> result bytes.
Variable MarshalEthernet : Ethernet -> result bytes.
Variable factory : Device -> FactoryCall -> env -> option error * env.
Variable SendMessage : Device -> PacketOut -> env -> option error * env.
Variable nextDeviceUp : Finder -> Device -> env -> option error * env.

Local Abbreviation up :=
  (OnDeviceUp env Finder Device NewARPRequest MarshalARP MarshalEthernet
     factory SendMessage nextDeviceUp).

Ltac unfold_up r Hr :=
  cbv beta zeta;
  remember (up _ _ _) as r eqn:Hr;
  unfold OnDeviceUp, onWorld, makeARPAnnouncement, sendARPAnnouncement,
    forwardDeviceUp, NewAction, NewPacketOut, callFactory, callSendMessage,
    liftResult, orWrap, bind, ret, raise, liftErr in Hr;
  cbn in Hr.

Ltac branch_up Hr :=
  match type of Hr with
  | context [MarshalARP ?a] => destruct (MarshalARP a) eqn:? in Hr
  | context [MarshalEthernet ?a] => destruct (MarshalEthernet a) eqn:? in Hr
  | context [factory ?d ?k ?e] =>
      destruct (factory d k e) as [[?|] ?] eqn:? in Hr
  | context [SendMessage ?d ?m ?e] =>
      destruct (SendMessage d m e) as [[?|] ?] eqn:? in Hr
  | context [nextDeviceUp ?f ?d ?e] =>
      destruct (nextDeviceUp f d e) as [[?|] ?] eqn:? in Hr
  end; cbn in Hr.

(** X15. When [OnDeviceUp] returns success it has sent exactly one
    message on the device, a packet-out with in-port "controller" and
    an output action whose port was left unset (flood), carrying the
    Ethernet frame from the announced hardware address to the broadcast
    address, of type ARP, around the encoded request in which the
    announced address 223.130.122.1 is both sender and target; and it
    has then handed the event to the next stage, once.  It has not
    consulted the directory. *)
Theorem OnDeviceUp_floods_then_forwards finder device (s : UpWorld env Device) :
  let r := up finder device s in
  fst r = Ok tt ->
  exists payload data,
    MarshalARP (NewARPRequest announcedMAC announcedIP announcedIP) = Ok payload /\
    MarshalEthernet (announcementFrame payload) = Ok data /\
    w_sent (up_world (snd r)) = w_sent (up_world s) ++ [floodOut data] /\
    up_forwarded (snd r) = up_forwarded s ++ [device] /\
    w_lookups (up_world (snd r)) = w_lookups (up_world s).
Proof.
  unfold_up r Hr.
  repeat branch_up Hr.
  all: subst r; cbn; intros H; try discriminate H.
  match goal with
  | HA : MarshalARP _ = Ok ?p, HE : MarshalEthernet _ = Ok ?d |- _ =>
      exists p, d; split; [exact HA|]; split; [exact HE|]
  end.
  repeat split.
Qed.


End DeviceUpFacts.

Section MoreExamples.

Import OpenFlow ProxyARP DeviceUp DeviceUpSpec.

Local Abbreviation onSamples thm :=
  (thm Samples.directory Samples.decodeARP Samples.encodeARP
       Samples.encodeEthernet Samples.okARPFactory Samples.okSend
       Samples.okNext tt Samples.ingress3).

Lemma non_ARP_frames_pass_through_witness :
  fst (Samples.proxy MoreSamples.ip_frame Samples.arpWorld0) = Ok tt /\
  w_forwarded (snd (Samples.proxy MoreSamples.ip_frame Samples.arpWorld0)) =
    [(Samples.ingress3, MoreSamples.ip_frame)] /\
  w_lookups (snd (Samples.proxy MoreSamples.ip_frame Samples.arpWorld0)) = [].
Proof.
  assert (H : EthType MoreSamples.ip_frame <> 0x0806) by discriminate.
  destruct (onSamples (@non_ARP_frames_pass_through nat unit)
              MoreSamples.ip_frame Samples.arpWorld0 H)
    as (Hok & _ & Hfw & _ & Hlook & _).
  split; [exact Hok|]. split; [exact Hfw | exact Hlook].
Defined.

Lemma other_ARP_operations_are_dropped_witness :
  fst (Samples.proxy MoreSamples.arp_reply_frame Samples.arpWorld0) = Ok tt /\
  w_forwarded (snd (Samples.proxy MoreSamples.arp_reply_frame Samples.arpWorld0)) = [] /\
  w_sent (snd (Samples.proxy MoreSamples.arp_reply_frame Samples.arpWorld0)) = [].
Proof.
  assert (H : Operation (NewARPReply Samples.mac_host5 Samples.mac_host9
                           Samples.ip_10_0_0_5 Samples.ip_10_0_0_9) <> 1)
    by discriminate.
  destruct (onSamples (@other_ARP_operations_are_dropped nat unit)
              MoreSamples.arp_reply_frame _ Samples.arpWorld0
              eq_refl eq_refl H)
    as (Hok & _ & _ & Hfw & Hsent).
  split; [exact Hok|]. split; [exact Hfw | exact Hsent].
Defined.

Lemma undecodable_ARP_is_an_error_witness :
  fst (Samples.proxy MoreSamples.short_arp_frame Samples.arpWorld0) =
    Err "invalid ARP packet length" /\
  w_forwarded (snd (Samples.proxy MoreSamples.short_arp_frame Samples.arpWorld0)) = [].
Proof.
  destruct (onSamples (@undecodable_ARP_is_an_error nat unit)
              MoreSamples.short_arp_frame "invalid ARP packet length"%string
              Samples.arpWorld0 eq_refl eq_refl)
    as (Herr & _ & _ & Hfw & _).
  split; [exact Herr | exact Hfw].
Defined.

Lemma directory_failure_is_returned_witness :
  fst (MoreSamples.downProxy (Samples.frameOf Samples.request_for_5)
         Samples.arpWorld0) = Err "database is down" /\
  w_sent (snd (MoreSamples.downProxy (Samples.frameOf Samples.request_for_5)
                 Samples.arpWorld0)) = [].
Proof.
  destruct (@directory_failure_is_returned nat unit
              MoreSamples.downDirectory Samples.decodeARP Samples.encodeARP
              Samples.encodeEthernet Samples.okARPFactory Samples.okSend
              Samples.okNext tt Samples.ingress3
              (Samples.frameOf Samples.request_for_5) Samples.request_for_5
              [] false "database is down"%string 1%nat Samples.arpWorld0
              eq_refl eq_refl eq_refl eq_refl)
    as (Herr & _ & _ & Hsent).
  split; [exact Herr | exact Hsent].
Defined.

(** The announcement that goes out when device 7 comes up. *)
Example OnDeviceUp_on_a_good_device :
  MoreSamples.deviceUp MoreSamples.okDeviceSend MoreSamples.upWorld0 =
  (Ok tt,
   {| up_world :=
        {| w_env := 4%nat; w_lookups := []; w_forwarded := [];
           w_sent :=
             [floodOut
                (broadcastMAC ++ announcedMAC ++ [x08; x06] ++
                 Samples.arpBytes
                   (Samples.arpRequest announcedMAC announcedIP announcedIP))];
           w_log := [] |};
      up_forwarded := [7%nat] |}).
Proof. reflexivity. Qed.

Lemma OnDeviceUp_floods_then_forwards_witness :
  exists payload data,
    Samples.encodeARP
      (MoreSamples.sampleRequest announcedMAC announcedIP announcedIP) =
      Ok payload /\
    Samples.encodeEthernet (announcementFrame payload) = Ok data /\
    w_sent (up_world (snd (MoreSamples.deviceUp MoreSamples.okDeviceSend
                             MoreSamples.upWorld0))) =
      w_sent (up_world MoreSamples.upWorld0) ++ [floodOut data] /\
    up_forwarded (snd (MoreSamples.deviceUp MoreSamples.okDeviceSend
                         MoreSamples.upWorld0)) =
      up_forwarded MoreSamples.upWorld0 ++ [7%nat] /\
    w_lookups (up_world (snd (MoreSamples.deviceUp MoreSamples.okDeviceSend
                                MoreSamples.upWorld0))) =
      w_lookups (up_world MoreSamples.upWorld0).
Proof.
  apply (@OnDeviceUp_floods_then_forwards nat unit nat
           MoreSamples.sampleRequest Samples.encodeARP Samples.encodeEthernet
           MoreSamples.okDeviceFactory MoreSamples.okDeviceSend
           MoreSamples.okNextUp tt 7%nat MoreSamples.upWorld0).
  reflexivity.
Defined.


End MoreExamples.
